(** * Pedestrian-volume disaggregation: the estimation pipeline of [utils.py]

    A shallow embedding of the functions of
    [src/estimate_ratio_using_stc/utils.py] that compute on count tables
    ([get_24h_count_df], [get_AADPT], [get_true_ratio], [get_8h_count_df],
    [get_ratio_errors], [get_confidence_interval]) and the properties of
    them that the specification states.

    Conventions of the embedding.
    - A pandas DataFrame is a list of rows (a record per frame shape), in
      index order.  A [DatetimeIndex] value is the number of seconds since
      1970-01-01 00:00:00.
    - The integer columns read from the CSV are [Z], and their sums are
      sums of integers.  The statements that would not survive the
      wrap-around of int64 carry the hypothesis [counts_fit], which keeps
      every sum of counts within int64 and exact in float64.  Module [I64]
      has [get_8h_count_df] with the sums taken modulo [2^64]; on a table
      that fits it returns the same frame.
    - A float64 is an exact rational or a non-finite value: [float] is
      [option Q], [None] standing for NaN and the infinities.  Rounding
      error of the finite operations is not modelled: what is proved over
      [float] says which formula the code evaluates, in exact arithmetic.
      Module [F64] has [get_AADPT] and [get_true_ratio] over binary64
      numbers, for the one place where rounding decides a property.
    - The standard deviation needs a square root, so the confidence
      summary is stated over the real numbers, and [round(., 3)] rounds
      the real number. *)

From Stdlib Require Import ZArith QArith Qabs List String Bool Lia.
From Stdlib Require Import Reals Lra Sorted Permutation.
From Stdlib Require Lqa PrimFloat Uint63 FloatOps SpecFloat.
Import ListNotations.

Local Open Scope Z_scope.

(** ** Floating-point values *)

Definition float := option Q.

Definition of_int (z : Z) : float := Some (inject_Z z).

Definition lift2 (op : Q -> Q -> Q) (a b : float) : float :=
  match a, b with
  | Some x, Some y => Some (op x y)
  | _, _ => None
  end.

Definition fadd : float -> float -> float := lift2 Qplus.
Definition fsub : float -> float -> float := lift2 Qminus.
Definition fmul : float -> float -> float := lift2 Qmult.

(** Division of float64 values in numpy and pandas does not raise: a zero
    denominator gives NaN or an infinity. *)
Definition fdiv (a b : float) : float :=
  match a, b with
  | Some x, Some y => if Qeq_bool y 0 then None else Some (x / y)%Q
  | _, _ => None
  end.

Definition fabs (a : float) : float := option_map Qabs a.

(** [a == 0]: false on NaN and on the infinities. *)
Definition feq0 (a : float) : bool :=
  match a with
  | Some x => Qeq_bool x 0
  | None => false
  end.

(** [a > h] for an integer threshold [h].  It is used on the adjusted daily
    volumes only, whose single non-finite value is the NaN of [0 / 0]; NaN
    compares false. *)
Definition fgt (a : float) (h : Z) : bool :=
  match a with
  | Some x => negb (Qle_bool x (inject_Z h))
  | None => false
  end.

(** ** Calendar fields of a timestamp *)

Definition SECONDS_PER_HOUR : Z := 3600.
Definition SECONDS_PER_DAY : Z := 86400.

(** Day number since 1970-01-01 of a timestamp. *)
Definition day_number (t : Z) : Z := t / SECONDS_PER_DAY.

(** Seconds since midnight. *)
Definition time_of_day (t : Z) : Z := t mod SECONDS_PER_DAY.

(** [DatetimeIndex.dayofweek]: Monday is 0; 1970-01-01 was a Thursday. *)
Definition dayofweek (t : Z) : Z := (day_number t + 3) mod 7.

(** [DatetimeIndex.month], by the usual civil-from-days computation on the
    proleptic Gregorian calendar. *)
Definition month (t : Z) : Z :=
  let z := day_number t + 719468 in
  let era := z / 146097 in
  let doe := z - era * 146097 in
  let yoe := (doe - doe / 1460 + doe / 36524 - doe / 146096) / 365 in
  let doy := doe - (365 * yoe + yoe / 4 - yoe / 100) in
  let mp := (5 * doy + 2) / 153 in
  if mp <? 10 then mp + 3 else mp - 9.

(** ** Frames *)

Module Raw.
(** A row of the table returned by [load_transform] (with [drop = True]). *)
Record row := mk {
  date : Z;
  name : string;
  ped_N : Z;
  ped_S : Z;
  ped_W : Z;
  ped_E : Z;
  vol_vehicle : Z
}.
End Raw.

Module D24.
(** A row of [df_int_24h]: the daily sums of the numeric columns of
    [df_int] (the two flag columns are summed as 0/1), with the
    directional sums overwritten by their adjusted values. *)
Record row := mk {
  date : Z;
  ped_N : float;
  ped_S : float;
  ped_W : float;
  ped_E : float;
  vol_vehicle : Z;
  F1 : Z;
  F2 : Z;
  num_valid_counts : Z
}.
End D24.

(** [df.resample(freq)]: the bins [lo, lo + freq), ... run from the bin of
    the smallest index value to the bin of the largest one, empty bins
    included; each bin comes with the rows it holds. *)
Definition floor_to (freq t : Z) : Z := freq * (t / freq).

Definition bins (freq : Z) (index : list Z) : list Z :=
  match index with
  | [] => []
  | t :: ts =>
      let lo := floor_to freq (fold_right Z.min t ts) in
      let hi := floor_to freq (fold_right Z.max t ts) in
      map (fun i => lo + freq * Z.of_nat i)
          (seq 0 (S (Z.to_nat ((hi - lo) / freq))))
  end.

Definition in_bin (freq b t : Z) : bool := (b <=? t) && (t <? b + freq).

Definition resample {A : Type} (freq : Z) (index : A -> Z) (df : list A)
  : list (Z * list A) :=
  map (fun b => (b, filter (fun r => in_bin freq b (index r)) df))
      (bins freq (map index df)).

(** [.sum()] of an integer column over a group. *)
Definition sum_col {A : Type} (col : A -> Z) (g : list A) : Z :=
  fold_right Z.add 0 (map col g).

(** [.count()] of a column without missing values. *)
Definition count {A : Type} (g : list A) : Z := Z.of_nat (List.length g).

(** ** [get_24h_count_df] *)

(** [df_int] after the two flag columns are added. *)
Record flagged := mk_flagged {
  rec : Raw.row;
  flag_F1 : bool;
  flag_F2 : bool
}.

Definition flag_rows (H15 : Z) (df_int : list Raw.row) : list flagged :=
  map (fun r =>
         mk_flagged r
           (forallb (fun c => c r =? 0)
              [Raw.ped_N; Raw.ped_S; Raw.ped_W; Raw.ped_E; Raw.vol_vehicle])
           (existsb (fun c => H15 <? c r)
              [Raw.ped_N; Raw.ped_S; Raw.ped_W; Raw.ped_E]))
      df_int.

(** The frame selected before the daily aggregation:
    [df_int.loc[(df_int.F1==False) & (df_int.F2==False), :]]. *)
Definition unflagged (df_int : list flagged) : list flagged :=
  filter (fun r => negb (flag_F1 r) && negb (flag_F2 r)) df_int.

Definition b2z (b : bool) : Z := if b then 1 else 0.

(** Daily sums, [num_valid_counts] and the adjustment by
    [/ num_valid_counts * 96] of the frame [src]. *)
Definition daily_adjusted (src : list flagged) : list D24.row :=
  map (fun '(d, g) =>
         let num_valid_counts := count g in
         let adj col :=
           fmul (fdiv (of_int (sum_col (fun r => col (rec r)) g))
                      (of_int num_valid_counts))
                (of_int 96) in
         D24.mk d (adj Raw.ped_N) (adj Raw.ped_S) (adj Raw.ped_W)
           (adj Raw.ped_E)
           (sum_col (fun r => Raw.vol_vehicle (rec r)) g)
           (sum_col (fun r => b2z (flag_F1 r)) g)
           (sum_col (fun r => b2z (flag_F2 r)) g)
           num_valid_counts)
      (resample SECONDS_PER_DAY (fun r => Raw.date (rec r)) src).

Definition flag_F3 (T24 : Z) (r : D24.row) : bool :=
  D24.num_valid_counts r <? T24.

Definition flag_F4 (H24 : Z) (r : D24.row) : bool :=
  existsb (fun c => fgt (c r) H24)
    [D24.ped_N; D24.ped_S; D24.ped_W; D24.ped_E].

Definition valid_days (H24 T24 : Z) (df : list D24.row) : list D24.row :=
  filter (fun r => negb (flag_F3 T24 r) && negb (flag_F4 H24 r)) df.

Definition get_24h_count_df (data : list Raw.row) (intersection_name : string)
    (H15 H24 T24 : Z) : list D24.row :=
  let df_int :=
    flag_rows H15 (filter (fun r => String.eqb (Raw.name r) intersection_name) data) in
  (* the selection of the unflagged rows is assigned to df_int_24h ... *)
  let df_int_24h := unflagged df_int in
  (* ... and overwritten: the sums and the counts are taken over df_int *)
  let df_int_24h := daily_adjusted df_int in
  valid_days H24 T24 df_int_24h.

(** The aggregation over the selected rows, as the comments of the source
    and the specification describe it; for comparison only. *)
Definition get_24h_count_df_filtered (data : list Raw.row)
    (intersection_name : string) (H15 H24 T24 : Z) : list D24.row :=
  let df_int :=
    flag_rows H15 (filter (fun r => String.eqb (Raw.name r) intersection_name) data) in
  valid_days H24 T24 (daily_adjusted (unflagged df_int)).

(** ** [get_AADPT] and [get_true_ratio] *)

(** [Index.unique()]: the distinct values, in order of first appearance. *)
Fixpoint unique (l : list Z) : list Z :=
  match l with
  | [] => []
  | x :: xs => x :: filter (fun y => negb (y =? x)) (unique xs)
  end.

(** Python's [sum] over an array of floats, starting from the integer 0. *)
Definition fsum (volumes : list float) : float :=
  fold_left fadd volumes (of_int 0).

(** The rows of the (month [m], weekday [d]) stratum. *)
Definition stratum (df : list D24.row) (m d : Z) : list D24.row :=
  filter (fun r => (month (D24.date r) =? m) && (dayofweek (D24.date r) =? d))
         df.

Definition get_AADPT (df_int_24h : list D24.row) (count_col : D24.row -> float)
  : float :=
  let months := unique (map (fun r => month (D24.date r)) df_int_24h) in
  let dayofweeks := unique (map (fun r => dayofweek (D24.date r)) df_int_24h) in
  let n_j := count months in
  let n_jm := count dayofweeks in
  fold_left
    (fun AADPT m =>
       fold_left
         (fun AADPT d =>
            let volumes := map count_col (stratum df_int_24h m d) in
            let sum_V_jmdi := fsum volumes in
            let n_jmd := count volumes in
            if negb (n_jmd =? 0) then
              fadd AADPT
                (fmul (fdiv (fmul (fdiv (fmul (fdiv (of_int 1) (of_int n_j))
                                              (of_int 1))
                                        (of_int n_jm))
                                  (of_int 1))
                            (of_int n_jmd))
                      sum_V_jmdi)
            else AADPT)
         dayofweeks AADPT)
    months (of_int 0).

Record true_ratio := mk_true_ratio {
  AADPT_tot : float;
  ratio_N_true : float;
  ratio_S_true : float;
  ratio_W_true : float;
  ratio_E_true : float
}.

Definition get_true_ratio (df_int_24h : list D24.row) : true_ratio :=
  let AADPT_N := get_AADPT df_int_24h D24.ped_N in
  let AADPT_S := get_AADPT df_int_24h D24.ped_S in
  let AADPT_W := get_AADPT df_int_24h D24.ped_W in
  let AADPT_E := get_AADPT df_int_24h D24.ped_E in
  let AADPT_tot := fadd (fadd (fadd AADPT_N AADPT_S) AADPT_W) AADPT_E in
  mk_true_ratio AADPT_tot
    (if feq0 AADPT_tot then of_int 0 else fdiv AADPT_N AADPT_tot)
    (if feq0 AADPT_tot then of_int 0 else fdiv AADPT_S AADPT_tot)
    (if feq0 AADPT_tot then of_int 0 else fdiv AADPT_W AADPT_tot)
    (if feq0 AADPT_tot then of_int 0 else fdiv AADPT_E AADPT_tot).

(** ** [get_8h_count_df] *)

Module Sums.
(** A row of a resampled sum of the count columns. *)
Record row := mk {
  date : Z;
  ped_N : Z;
  ped_S : Z;
  ped_W : Z;
  ped_E : Z;
  vol_vehicle : Z
}.
End Sums.

Module D8.
(** A row of [df_int_8h], with its [total] column. *)
Record row := mk {
  date : Z;
  ped_N : Z;
  ped_S : Z;
  ped_W : Z;
  ped_E : Z;
  vol_vehicle : Z;
  total : Z
}.
End D8.

(** A time of day [h:mm] in seconds since midnight. *)
Definition clock (h m : Z) : Z := h * SECONDS_PER_HOUR + m * 60.

(** [df.between_time(start, end)], both ends included. *)
Definition between_time (start_time end_time : Z) (df : list Sums.row)
  : list Sums.row :=
  filter (fun r => (start_time <=? time_of_day (Sums.date r))
                   && (time_of_day (Sums.date r) <=? end_time)) df.

Definition isin (x : Z) (values : list Z) : bool :=
  existsb (Z.eqb x) values.

Definition add_total (r : Sums.row) : D8.row :=
  D8.mk (Sums.date r) (Sums.ped_N r) (Sums.ped_S r) (Sums.ped_W r)
    (Sums.ped_E r) (Sums.vol_vehicle r)
    (Sums.ped_N r + Sums.ped_S r + Sums.ped_W r + Sums.ped_E r).

Definition get_8h_count_df (data : list Raw.row) (intersection_name : string)
    (holidays : list Z) : list D8.row :=
  let df_int :=
    filter (fun r => String.eqb (Raw.name r) intersection_name) data in
  let df_int_stc_h :=
    map (fun '(h, g) =>
           Sums.mk h (sum_col Raw.ped_N g) (sum_col Raw.ped_S g)
             (sum_col Raw.ped_W g) (sum_col Raw.ped_E g)
             (sum_col Raw.vol_vehicle g))
        (resample SECONDS_PER_HOUR Raw.date df_int) in
  let df_int_h_valid :=
    between_time (clock 7 0) (clock 9 0) df_int_stc_h
    ++ between_time (clock 11 0) (clock 14 0) df_int_stc_h
    ++ between_time (clock 15 0) (clock 18 0) df_int_stc_h in
  let df_int_8h :=
    map (fun '(d, g) =>
           Sums.mk d (sum_col Sums.ped_N g) (sum_col Sums.ped_S g)
             (sum_col Sums.ped_W g) (sum_col Sums.ped_E g)
             (sum_col Sums.vol_vehicle g))
        (resample SECONDS_PER_DAY Sums.date df_int_h_valid) in
  let df_int_8h :=
    filter (fun r => isin (dayofweek (Sums.date r)) [1; 2; 3]
                     && isin (month (Sums.date r)) [4; 5; 6; 9; 10; 11])
           df_int_8h in
  let df_int_8h :=
    filter (fun r => negb (isin (Sums.date r) holidays)) df_int_8h in
  let df_int_8h := map add_total df_int_8h in
  filter (fun r => negb (D8.total r =? 0)) df_int_8h.

(** ** [get_ratio_errors] *)

Module Err.
(** A row of [error_df]. *)
Record row := mk {
  ratio_N_errs : float;
  ratio_S_errs : float;
  ratio_W_errs : float;
  ratio_E_errs : float;
  ratio_avg_errs : float
}.
End Err.

(** A call either returns or raises [ValueError]. *)
Inductive result (A : Type) : Type :=
| Ok (a : A)
| ValueError.
Arguments Ok {A} a.
Arguments ValueError {A}.

(** [(ratio - ratio_true) / (ratio_true + 0.0001)] *)
Definition ratio_err (ratio ratio_true : float) : float :=
  fdiv (fsub ratio ratio_true) (fadd ratio_true (Some (1 # 10000)%Q)).

(** The row of the [stc_num == 1] branch for one short-term day. *)
Definition day_errors (t : true_ratio) (r : D8.row) : Err.row :=
  let ratio_N := fdiv (of_int (D8.ped_N r)) (of_int (D8.total r)) in
  let ratio_S := fdiv (of_int (D8.ped_S r)) (of_int (D8.total r)) in
  let ratio_W := fdiv (of_int (D8.ped_W r)) (of_int (D8.total r)) in
  let ratio_E := fdiv (of_int (D8.ped_E r)) (of_int (D8.total r)) in
  let ratio_N_err := ratio_err ratio_N (ratio_N_true t) in
  let ratio_S_err := ratio_err ratio_S (ratio_S_true t) in
  let ratio_W_err := ratio_err ratio_W (ratio_W_true t) in
  let ratio_E_err := ratio_err ratio_E (ratio_E_true t) in
  let ratio_avg_err :=
    fmul (Some (1 # 4)%Q)
      (fadd (fadd (fadd (fabs ratio_E_err) (fabs ratio_W_err))
                  (fabs ratio_N_err))
            (fabs ratio_N_err)) in
  Err.mk ratio_N_err ratio_S_err ratio_W_err ratio_E_err ratio_avg_err.

(** The row of one trial of the other branch, from the drawn days. *)
Definition sample_errors (t : true_ratio) (drawn : list D8.row) : Err.row :=
  let total := of_int (sum_col D8.total drawn) in
  let ratio_N_err :=
    ratio_err (fdiv (of_int (sum_col D8.ped_N drawn)) total) (ratio_N_true t) in
  let ratio_S_err :=
    ratio_err (fdiv (of_int (sum_col D8.ped_S drawn)) total) (ratio_S_true t) in
  let ratio_W_err :=
    ratio_err (fdiv (of_int (sum_col D8.ped_W drawn)) total) (ratio_W_true t) in
  let ratio_E_err :=
    ratio_err (fdiv (of_int (sum_col D8.ped_E drawn)) total) (ratio_E_true t) in
  let ratio_avg_err :=
    fmul (Some (1 # 4)%Q)
      (fadd (fadd (fadd (fabs ratio_N_err) (fabs ratio_S_err))
                  (fabs ratio_W_err))
            (fabs ratio_E_err)) in
  Err.mk ratio_N_err ratio_S_err ratio_W_err ratio_E_err ratio_avg_err.

Section Sampling.

(** The state of numpy's process-wide generator, which
    [DataFrame.sample] uses when it is given no [random_state], and the
    generator's [choice(n, size=k, replace=False)]: [k] positions below
    [n] and the state after the draw.  [get_ratio_errors] has no seed
    argument and never seeds the generator. *)
Variable RandomState : Type.
Variable choice : RandomState -> nat -> nat -> list nat * RandomState.

(** [df.take(locs)] *)
Definition take {A : Type} (locs : list nat) (df : list A) : list A :=
  flat_map (fun i => match nth_error df i with
                     | Some r => [r]
                     | None => []
                     end) locs.

(** [df.sample(n=n, replace=False)]: a negative [n], or more rows than the
    frame has, raises [ValueError] before anything is drawn. *)
Definition sample {A : Type} (g : RandomState) (df : list A) (n : Z)
  : result (list A) * RandomState :=
  if (n <? 0) || (count df <? n) then (ValueError, g)
  else
    let '(locs, g') := choice g (List.length df) (Z.to_nat n) in
    (Ok (take locs df), g').

(** The loop [for _ in range(repeat)], one draw per iteration. *)
Fixpoint trials (repeat : nat) (g : RandomState) (df_int_8h : list D8.row)
    (t : true_ratio) (stc_num : Z) : result (list Err.row) * RandomState :=
  match repeat with
  | O => (Ok [], g)
  | S repeat' =>
      match sample g df_int_8h stc_num with
      | (ValueError, g') => (ValueError, g')
      | (Ok sample_stc, g') =>
          match trials repeat' g' df_int_8h t stc_num with
          | (Ok errs, g'') => (Ok (sample_errors t sample_stc :: errs), g'')
          | (ValueError, g'') => (ValueError, g'')
          end
      end
  end.

Definition get_ratio_errors (g : RandomState) (df_int_8h : list D8.row)
    (df_int_24h : list D24.row) (stc_num repeat : Z)
  : result (list Err.row) * RandomState :=
  let t := get_true_ratio df_int_24h in
  if stc_num =? 1 then (Ok (map (day_errors t) df_int_8h), g)
  else trials (Z.to_nat repeat) g df_int_8h t stc_num.

End Sampling.

(** ** [get_confidence_interval] *)

Section Confidence.
Local Open Scope R_scope.

Definition Rsum (l : list R) : R := fold_right Rplus 0 l.

(** [np.mean] *)
Definition mean (errs : list R) : R := Rsum errs / INR (List.length errs).

(** [np.std], with its default [ddof = 0]:
    [sqrt(mean(abs(x - x.mean())**2))]. *)
Definition std (errs : list R) : R :=
  sqrt (mean (map (fun x => Rabs (x - mean errs) ^ 2) errs)).

Fixpoint insert_sorted (x : R) (l : list R) : list R :=
  match l with
  | [] => [x]
  | y :: ys => if Rle_dec x y then x :: l else y :: insert_sorted x ys
  end.

Definition sort (l : list R) : list R := fold_right insert_sorted [] l.

(** [np.percentile(errs, q)] with the default linear interpolation, for an
    integer [q] in [0, 100]: the virtual index [(n - 1) * q / 100] is split
    into its floor and its fractional part [gamma]. *)
Definition percentile_at (errs : list R) (q : Z) : R :=
  let a := sort errs in
  let n := Z.of_nat (List.length errs) in
  let previous := ((n - 1) * q / 100)%Z in
  let next := Z.min (previous + 1) (n - 1) in
  let gamma := IZR (((n - 1) * q) mod 100) / 100 in
  let lo := nth (Z.to_nat previous) a 0 in
  let hi := nth (Z.to_nat next) a 0 in
  lo + (hi - lo) * gamma.

(** [np.rint]: the nearest integer, ties to the even one. *)
Definition rint (x : R) : Z :=
  let n := Int_part x in
  let f := frac_part x in
  if Rlt_dec f (1 / 2) then n
  else if Rlt_dec (1 / 2) f then (n + 1)%Z
  else if Z.even n then n else (n + 1)%Z.

(** [round(x, 3)] of a numpy float: scale by [10**3], [rint], scale back. *)
Definition round3 (x : R) : R := IZR (rint (x * 1000)) / 1000.

Definition Zstar : R := 165 / 100.

(** The quadruple [(lcb, mean, ucb, nth_percentile)].  [None] stands for
    the calls that return no quadruple of numbers: an empty array (NaN
    throughout) and a percentile outside [0, 100] ([np.percentile] raises
    [ValueError]). *)
Definition get_confidence_interval (errs : list R) (percentile : Z)
  : option (R * R * R * R) :=
  match errs with
  | [] => None
  | _ :: _ =>
      if ((0 <=? percentile) && (percentile <=? 100))%Z then
        let mean := mean errs in
        let sd := std errs in
        let lcb := mean - Zstar * sd in
        let ucb := mean + Zstar * sd in
        let nth_percentile := percentile_at errs percentile in
        Some (round3 lcb, round3 mean, round3 ucb, round3 nth_percentile)
      else None
  end.

End Confidence.

(** ** Definitions of the specification *)

Definition Qsum (l : list Q) : Q := fold_right Qplus 0%Q l.

(** The mean daily volume of a stratum. *)
Definition stratum_mean (vol : D24.row -> Q) (s : list D24.row) : Q :=
  (Qsum (map vol s) / inject_Z (count s))%Q.

(** The three-level average in the words of the specification: the global
    counts of months and weekdays divide, and only the strata that hold a
    day enter the sums. *)
Definition AADPT_stratified (df : list D24.row) (vol : D24.row -> Q) : Q :=
  let months := unique (map (fun r => month (D24.date r)) df) in
  let weekdays := unique (map (fun r => dayofweek (D24.date r)) df) in
  let n_months := inject_Z (count months) in
  let n_weekdays := inject_Z (count weekdays) in
  match df with
  | [] => 0%Q
  | _ :: _ =>
      ((1 / n_months) *
       Qsum (map (fun m =>
                    (1 / n_weekdays) *
                    Qsum (map (fun d => stratum_mean vol (stratum df m d))
                              (filter (fun d =>
                                         negb (count (stratum df m d) =? 0))
                                      weekdays)))
                 months))%Q
  end.

(** A table of valid daily volumes: every directional volume is a
    non-negative number. *)
Definition valid_volumes (df : list D24.row) : Prop :=
  forall r, In r df ->
  forall c, In c [D24.ped_N; D24.ped_S; D24.ped_W; D24.ped_E] ->
  exists q, c r = Some q /\ (0 <= q)%Q.

Definition vol_of (c : D24.row -> float) (r : D24.row) : Q :=
  match c r with
  | Some q => q
  | None => 0%Q
  end.

(** ** Sample tables *)

(** 2022-05-03 00:00:00, a Tuesday. *)
Definition tue_2022_05_03 : Z := 19115 * SECONDS_PER_DAY.

Definition day24 (d : Z) (n s w e : Q) : D24.row :=
  D24.mk (tue_2022_05_03 + d * SECONDS_PER_DAY)
    (Some n) (Some s) (Some w) (Some e) 96 0 0 96.

(** Two valid days of one intersection. *)
Definition two_days : list D24.row :=
  [day24 0 100 20 30 50; day24 1 60 40 0 100].

(** Ten valid days with all the volume on the north crossing. *)
Definition ten_days_north : list D24.row :=
  map (fun i => day24 (Z.of_nat i) 100 0 0 0) (seq 0 10).

(** A day of 96 quarter-hour records of intersection A, one pedestrian on
    the north crossing in each, except 101 in the first. *)
Definition capped_day : list Raw.row :=
  map (fun i =>
         Raw.mk (tue_2022_05_03 + 900 * Z.of_nat i) "A"
           (if Nat.eqb i 0 then 101 else 1) 0 0 0 1)
      (seq 0 96).

Definition stc_day (d n s w e : Z) : D8.row :=
  D8.mk (tue_2022_05_03 + d * SECONDS_PER_DAY) n s w e 0 (n + s + w + e).

(** One and three short-term days. *)
Definition one_stc_day : list D8.row := [stc_day 0 1 3 0 0].

Definition three_stc_days : list D8.row :=
  [stc_day 0 1 3 0 0; stc_day 1 2 2 0 0; stc_day 2 4 0 0 0].

(** A day with the same volume on the four crossings. *)
Definition even_day : list D24.row := [day24 0 1 1 1 1].

(** The mean of the absolute values of the four directional errors of a
    row, in the words of the specification. *)
Definition four_way_mean (e : Err.row) : float :=
  fmul (Some (1 # 4)%Q)
    (fadd (fadd (fadd (fabs (Err.ratio_N_errs e)) (fabs (Err.ratio_S_errs e)))
                (fabs (Err.ratio_W_errs e)))
          (fabs (Err.ratio_E_errs e))).

(** A generator for the examples: its state counts the draws, and the
    [g]-th draw takes the [k] positions that follow position [g], cyclically. *)
Definition rotating_choice (g n k : nat) : list nat * nat :=
  (map (fun i => Nat.modulo (g + i) n) (seq 0 k), S g).

(** The positions of [repeat] successive draws and the state after them. *)
Fixpoint draws {RandomState : Type}
    (choice : RandomState -> nat -> nat -> list nat * RandomState)
    (repeat : nat) (g : RandomState) (n k : nat)
  : list (list nat) * RandomState :=
  match repeat with
  | O => ([], g)
  | S repeat' =>
      let '(locs, g') := choice g n k in
      let '(rest, g'') := draws choice repeat' g' n k in
      (locs :: rest, g'')
  end.


(** The adjusted north volume (in lowest terms), the number of counted
    records and the number of hard-cap flagged records of a day. *)
Definition north_view (r : D24.row) : option Q * Z * Z :=
  (option_map Qred (D24.ped_N r), D24.num_valid_counts r, D24.F2 r).

(** A generator that is never asked: the [stc_num == 1] branch draws
    nothing. *)
Definition no_choice (g : unit) (n k : nat) : list nat * unit := ([], g).

(** Records of intersection A: Tuesday 07:15 and 10:00 (outside the
    windows), Wednesday 08:00, Thursday 12:00 without a pedestrian, Friday
    12:00; and the Wednesday as the single holiday. *)
Definition stc_raw : list Raw.row :=
  [ Raw.mk (tue_2022_05_03 + clock 7 15) "A" 2 1 0 0 5;
    Raw.mk (tue_2022_05_03 + clock 10 0) "A" 9 9 9 9 1;
    Raw.mk (tue_2022_05_03 + SECONDS_PER_DAY + clock 8 0) "A" 5 0 0 0 3;
    Raw.mk (tue_2022_05_03 + 2 * SECONDS_PER_DAY + clock 12 0) "A" 0 0 0 0 4;
    Raw.mk (tue_2022_05_03 + 3 * SECONDS_PER_DAY + clock 12 0) "A" 7 7 7 7 4 ].

Definition stc_holidays : list Z := [tue_2022_05_03 + SECONDS_PER_DAY].

(** The input contract of the specification: the directional counts of the
    raw table are non-negative. *)
Definition nonneg_counts (data : list Raw.row) : Prop :=
  forall r, In r data ->
    0 <= Raw.ped_N r /\ 0 <= Raw.ped_S r /\ 0 <= Raw.ped_W r
    /\ 0 <= Raw.ped_E r.

Definition nonneg_sums (s : Sums.row) : Prop :=
  0 <= Sums.ped_N s /\ 0 <= Sums.ped_S s /\ 0 <= Sums.ped_W s
  /\ 0 <= Sums.ped_E s.

(** The array of the specification's example. *)
Definition errs_example : list R := [(-1)%R; 0%R; 1%R].

(** [v] is [raw] rounded to three decimal places: a multiple of 1/1000 at
    a distance of at most 1/2000. *)
Definition rounded_to_3 (v raw : R) : Prop :=
  (exists k : Z, v = IZR k / 1000)%R /\ (Rabs (v - raw) <= 1 / 2000)%R.

(** [sigma] is the population standard deviation of [errs]. *)
Definition population_sd (errs : list R) (sigma : R) : Prop :=
  (0 <= sigma
   /\ sigma * sigma
      = Rsum (map (fun x => (x - mean errs) ^ 2) errs)
        / INR (List.length errs))%R.

(** ** Columns by direction *)

(** The four directional columns of the raw table paired with those of
    the daily frame, and with those of the short-term frame. *)
Definition directions24 : list ((Raw.row -> Z) * (D24.row -> float)) :=
  [(Raw.ped_N, D24.ped_N); (Raw.ped_S, D24.ped_S);
   (Raw.ped_W, D24.ped_W); (Raw.ped_E, D24.ped_E)].

(** The records of an intersection that fall on the day starting at the
    midnight [d]. *)
Definition records_of_day (data : list Raw.row) (intersection_name : string)
    (d : Z) : list Raw.row :=
  filter (fun x => in_bin SECONDS_PER_DAY d (Raw.date x))
         (filter (fun x => String.eqb (Raw.name x) intersection_name) data).

(** Two quarter-hour records of intersection A with three pedestrians on
    the north crossing each. *)
Definition half_hour : list Raw.row :=
  [ Raw.mk tue_2022_05_03 "A" 3 0 0 0 1;
    Raw.mk (tue_2022_05_03 + 900) "A" 3 0 0 0 2 ].

(** Records of intersection A on a Tuesday and on the Thursday after it,
    none on the Wednesday between them. *)
Definition gap_days : list Raw.row :=
  [ Raw.mk tue_2022_05_03 "A" 3 1 0 0 1;
    Raw.mk (tue_2022_05_03 + 2 * SECONDS_PER_DAY) "A" 2 2 0 0 1 ].

(** The hours of the day whose hourly sums pass one of the three
    [between_time] selections: 7 to 9, 11 to 14 and 15 to 18. *)
Definition stc_hour (t : Z) : bool :=
  let h := time_of_day t / SECONDS_PER_HOUR in
  ((7 <=? h) && (h <=? 9)) || ((11 <=? h) && (h <=? 14))
  || ((15 <=? h) && (h <=? 18)).


(** ** The stages of [get_8h_count_df] *)

(** [df_int.resample('H').sum(numeric_only=True)] *)
Definition hourly_sums (df_int : list Raw.row) : list Sums.row :=
  map (fun '(h, g) =>
         Sums.mk h (sum_col Raw.ped_N g) (sum_col Raw.ped_S g)
           (sum_col Raw.ped_W g) (sum_col Raw.ped_E g)
           (sum_col Raw.vol_vehicle g))
      (resample SECONDS_PER_HOUR Raw.date df_int).

(** The concatenation of the three [between_time] selections. *)
Definition stc_windows (df_int_stc_h : list Sums.row) : list Sums.row :=
  between_time (clock 7 0) (clock 9 0) df_int_stc_h
  ++ between_time (clock 11 0) (clock 14 0) df_int_stc_h
  ++ between_time (clock 15 0) (clock 18 0) df_int_stc_h.

(** [df_int_h_valid.resample('D').sum(numeric_only=True)] *)
Definition daily_sums (df_int_h_valid : list Sums.row) : list Sums.row :=
  map (fun '(d, g) =>
         Sums.mk d (sum_col Sums.ped_N g) (sum_col Sums.ped_S g)
           (sum_col Sums.ped_W g) (sum_col Sums.ped_E g)
           (sum_col Sums.vol_vehicle g))
      (resample SECONDS_PER_DAY Sums.date df_int_h_valid).

(** The count columns of the raw table paired with those of the sums. *)
Definition count_columns : list ((Raw.row -> Z) * (Sums.row -> Z)) :=
  [(Raw.ped_N, Sums.ped_N); (Raw.ped_S, Sums.ped_S);
   (Raw.ped_W, Sums.ped_W); (Raw.ped_E, Sums.ped_E);
   (Raw.vol_vehicle, Sums.vol_vehicle)].

(** ** Ranges of the ratios and of the errors *)

(** A ratio: a number between 0 and 1. *)
Definition is_ratio (a : float) : Prop :=
  exists q, a = Some q /\ (0 <= q <= 1)%Q.

(** A relative error within the range that the stabilised denominator
    allows: above -1 and up to 10000. *)
Definition bounded_error (a : float) : Prop :=
  exists q, a = Some q /\ (-1 < q <= 10000)%Q.

(** The contract of numpy's [choice(n, size=k, replace=False)] for
    [k <= n]: [k] positions below [n], no position twice. *)
Definition draws_positions {RandomState : Type}
    (choice : RandomState -> nat -> nat -> list nat * RandomState) : Prop :=
  forall g n k, (k <= n)%nat ->
    List.length (fst (choice g n k)) = k
    /\ NoDup (fst (choice g n k))
    /\ forall i, In i (fst (choice g n k)) -> (i < n)%nat.

(** A short-term day as [get_8h_count_df] returns them from non-negative
    counts: non-negative directions that add up to a total above 0. *)
Definition counted_day (r : D8.row) : Prop :=
  0 <= D8.ped_N r /\ 0 <= D8.ped_S r /\ 0 <= D8.ped_W r /\ 0 <= D8.ped_E r
  /\ D8.total r = D8.ped_N r + D8.ped_S r + D8.ped_W r + D8.ped_E r
  /\ 0 < D8.total r.


(** ** Evaluation in binary64 *)

Module F64.
(** [get_AADPT] and [get_true_ratio] once more, on IEEE 754 binary64
    numbers with their rounding, for evaluating the code on a given table.
    A row holds the columns that the two functions read. *)

Definition of_Z (z : Z) : PrimFloat.float :=
  if z <? 0 then PrimFloat.opp (PrimFloat.of_uint63 (Uint63.of_Z (- z)))
  else PrimFloat.of_uint63 (Uint63.of_Z z).

Record row := mk {
  date : Z;
  ped_N : PrimFloat.float;
  ped_S : PrimFloat.float;
  ped_W : PrimFloat.float;
  ped_E : PrimFloat.float
}.

(** Python's [sum] over an array of floats, starting from the integer 0. *)
Definition fsum (volumes : list PrimFloat.float) : PrimFloat.float :=
  fold_left PrimFloat.add volumes (of_Z 0).

Definition stratum (df : list row) (m d : Z) : list row :=
  filter (fun r => (month (date r) =? m) && (dayofweek (date r) =? d)) df.

Definition get_AADPT (df_int_24h : list row)
    (count_col : row -> PrimFloat.float) : PrimFloat.float :=
  let months := unique (map (fun r => month (date r)) df_int_24h) in
  let dayofweeks := unique (map (fun r => dayofweek (date r)) df_int_24h) in
  let n_j := count months in
  let n_jm := count dayofweeks in
  fold_left
    (fun AADPT m =>
       fold_left
         (fun AADPT d =>
            let volumes := map count_col (stratum df_int_24h m d) in
            let sum_V_jmdi := fsum volumes in
            let n_jmd := count volumes in
            if negb (n_jmd =? 0) then
              PrimFloat.add AADPT
                (PrimFloat.mul
                   (PrimFloat.div
                      (PrimFloat.mul
                         (PrimFloat.div
                            (PrimFloat.mul
                               (PrimFloat.div (of_Z 1) (of_Z n_j))
                               (of_Z 1))
                            (of_Z n_jm))
                         (of_Z 1))
                      (of_Z n_jmd))
                   sum_V_jmdi)
            else AADPT)
         dayofweeks AADPT)
    months (of_Z 0).

Record true_ratio := mk_true_ratio {
  AADPT_tot : PrimFloat.float;
  ratio_N_true : PrimFloat.float;
  ratio_S_true : PrimFloat.float;
  ratio_W_true : PrimFloat.float;
  ratio_E_true : PrimFloat.float
}.

Definition get_true_ratio (df_int_24h : list row) : true_ratio :=
  let AADPT_N := get_AADPT df_int_24h ped_N in
  let AADPT_S := get_AADPT df_int_24h ped_S in
  let AADPT_W := get_AADPT df_int_24h ped_W in
  let AADPT_E := get_AADPT df_int_24h ped_E in
  let AADPT_tot :=
    PrimFloat.add (PrimFloat.add (PrimFloat.add AADPT_N AADPT_S) AADPT_W)
                  AADPT_E in
  let ratio AADPT_X :=
    if PrimFloat.eqb AADPT_tot (of_Z 0) then of_Z 0
    else PrimFloat.div AADPT_X AADPT_tot in
  mk_true_ratio AADPT_tot (ratio AADPT_N) (ratio AADPT_S) (ratio AADPT_W)
    (ratio AADPT_E).

(** The rational number that a finite binary64 number is. *)
Definition to_Q (x : PrimFloat.float) : option Q :=
  match FloatOps.Prim2SF x with
  | SpecFloat.S754_zero _ => Some 0%Q
  | SpecFloat.S754_finite s m e =>
      let v :=
        (inject_Z (Zpos m)
         * (if 0 <=? e then inject_Z (2 ^ e) else / inject_Z (2 ^ (- e))))%Q in
      Some (if s then (- v)%Q else v)
  | _ => None
  end.

(** The sum, as a rational number, of finite binary64 numbers. *)
Definition exact_sum (l : list PrimFloat.float) : option Q :=
  fold_right (fun x acc =>
                match to_Q x, acc with
                | Some q, Some a => Some (Qred (q + a))
                | _, _ => None
                end)
             (Some 0%Q) l.

(** One valid day with the volumes 4, 3, 4 and 1. *)
Definition one_day : list row :=
  [mk (19115 * SECONDS_PER_DAY) (of_Z 4) (of_Z 3) (of_Z 4) (of_Z 1)].

End F64.

(** A record of intersection A on a Tuesday at 08:00 whose north count is
    negative. *)
Definition negative_count : list Raw.row :=
  [ Raw.mk (19115 * SECONDS_PER_DAY + clock 8 0) "A" (-1) 0 0 0 1 ].

(** The counts of a table stay exact: the absolute values of all its
    counts add up to [2^46] at most, so that no sum of counts overflows
    int64 and every sum, also multiplied by 96, is the same number in
    float64. *)
Definition counts_fit (data : list Raw.row) : Prop :=
  sum_col (fun r => Z.abs (Raw.ped_N r) + Z.abs (Raw.ped_S r)
                    + Z.abs (Raw.ped_W r) + Z.abs (Raw.ped_E r)
                    + Z.abs (Raw.vol_vehicle r)) data
  <= 2 ^ 46.

(** ** The integer columns as int64 *)

Module I64.

(** The int64 that an integer wraps around to. *)
Definition wrap (z : Z) : Z := (z + 2 ^ 63) mod 2 ^ 64 - 2 ^ 63.

(** [+] of two int64 values. *)
Definition add (a b : Z) : Z := wrap (a + b).

(** [.sum()] of an int64 column over a group. *)
Definition sum_col {A : Type} (col : A -> Z) (g : list A) : Z :=
  fold_right add 0 (map col g).

(** [df_int.resample('H').sum(numeric_only=True)] *)
Definition hourly_sums (df_int : list Raw.row) : list Sums.row :=
  map (fun '(h, g) =>
         Sums.mk h (sum_col Raw.ped_N g) (sum_col Raw.ped_S g)
           (sum_col Raw.ped_W g) (sum_col Raw.ped_E g)
           (sum_col Raw.vol_vehicle g))
      (resample SECONDS_PER_HOUR Raw.date df_int).

(** [df_int_h_valid.resample('D').sum(numeric_only=True)] *)
Definition daily_sums (df_int_h_valid : list Sums.row) : list Sums.row :=
  map (fun '(d, g) =>
         Sums.mk d (sum_col Sums.ped_N g) (sum_col Sums.ped_S g)
           (sum_col Sums.ped_W g) (sum_col Sums.ped_E g)
           (sum_col Sums.vol_vehicle g))
      (resample SECONDS_PER_DAY Sums.date df_int_h_valid).

Definition add_total (r : Sums.row) : D8.row :=
  D8.mk (Sums.date r) (Sums.ped_N r) (Sums.ped_S r) (Sums.ped_W r)
    (Sums.ped_E r) (Sums.vol_vehicle r)
    (add (add (add (Sums.ped_N r) (Sums.ped_S r)) (Sums.ped_W r))
         (Sums.ped_E r)).

(** [get_8h_count_df] with the sums and the total taken in int64. *)
Definition get_8h_count_df (data : list Raw.row) (intersection_name : string)
    (holidays : list Z) : list D8.row :=
  let df_int :=
    filter (fun r => String.eqb (Raw.name r) intersection_name) data in
  let df_int_stc_h := hourly_sums df_int in
  let df_int_h_valid :=
    between_time (clock 7 0) (clock 9 0) df_int_stc_h
    ++ between_time (clock 11 0) (clock 14 0) df_int_stc_h
    ++ between_time (clock 15 0) (clock 18 0) df_int_stc_h in
  let df_int_8h := daily_sums df_int_h_valid in
  let df_int_8h :=
    filter (fun r => isin (dayofweek (Sums.date r)) [1; 2; 3]
                     && isin (month (Sums.date r)) [4; 5; 6; 9; 10; 11])
           df_int_8h in
  let df_int_8h :=
    filter (fun r => negb (isin (Sums.date r) holidays)) df_int_8h in
  let df_int_8h := map add_total df_int_8h in
  filter (fun r => negb (D8.total r =? 0)) df_int_8h.

End I64.

(** Two records of intersection A on a Tuesday, at 08:00 and 08:15, each
    with [2^62] pedestrians on the north crossing. *)
Definition wrapping_counts : list Raw.row :=
  [ Raw.mk (19115 * SECONDS_PER_DAY + clock 8 0) "A" (2 ^ 62) 0 0 0 1;
    Raw.mk (19115 * SECONDS_PER_DAY + clock 8 15) "A" (2 ^ 62) 0 0 0 1 ].

(** What C9 says of a row: the total is not 0, the denominator of the
    ratios is not 0, and each of the four divisions gives a number. *)
Definition ratios_defined (r : D8.row) : Prop :=
  D8.total r <> 0
  /\ feq0 (of_int (D8.total r)) = false
  /\ forall c, In c [D8.ped_N; D8.ped_S; D8.ped_W; D8.ped_E] ->
       exists q, fdiv (of_int (c r)) (of_int (D8.total r)) = Some q.

(** * Properties *)

(** ** The stratified average *)

Lemma Qsum_scale (c : Q) (A : Type) (f : A -> Q) (l : list A) :
  (Qsum (map (fun x => c * f x) l) == c * Qsum (map f l))%Q.
Proof.
  induction l as [|x l IH]; simpl.
  - ring.
  - rewrite IH. ring.
Qed.

Lemma Qsum_ext (A : Type) (f g : A -> Q) (l : list A) :
  (forall x, In x l -> (f x == g x)%Q) ->
  (Qsum (map f l) == Qsum (map g l))%Q.
Proof.
  induction l as [|x l IH]; simpl; intros H.
  - reflexivity.
  - rewrite (H x (or_introl eq_refl)), IH; [reflexivity|].
    intros y Hy. apply H. now right.
Qed.

Lemma Qsum_filter (A : Type) (p : A -> bool) (f : A -> Q) (l : list A) :
  (Qsum (map (fun x => if p x then f x else 0) l)
   == Qsum (map f (filter p l)))%Q.
Proof.
  induction l as [|x l IH]; simpl.
  - reflexivity.
  - destruct (p x); simpl; rewrite IH; ring.
Qed.

Lemma Qsum_nonneg (l : list Q) :
  (forall x, In x l -> (0 <= x)%Q) -> (0 <= Qsum l)%Q.
Proof.
  induction l as [|x l IH]; simpl; intros H.
  - apply Qle_refl.
  - rewrite <- (Qplus_0_r 0). apply Qplus_le_compat.
    + apply H. now left.
    + apply IH. intros y Hy. apply H. now right.
Qed.

(** A loop that adds a finite term at every step stays finite and adds up
    the terms. *)
Lemma fold_left_accumulates (A : Type) (f : float -> A -> float)
    (T : A -> Q) (l : list A) :
  (forall x a, In x l -> exists b, f (Some a) x = Some b /\ (b == a + T x)%Q) ->
  forall a, exists b,
    fold_left f l (Some a) = Some b /\ (b == a + Qsum (map T l))%Q.
Proof.
  induction l as [|x l IH]; simpl; intros H a.
  - exists a. split; [reflexivity | ring].
  - destruct (H x a (or_introl eq_refl)) as (b & Hb & Eb).
    destruct (IH (fun y c Hy => H y c (or_intror Hy)) b) as (c & Hc & Ec).
    exists c. split.
    + now rewrite Hb.
    + rewrite Ec, Eb. ring.
Qed.

Lemma fsum_finite (A : Type) (col : A -> float) (vol : A -> Q) (s : list A) :
  (forall r, In r s -> col r = Some (vol r)) ->
  exists q, fsum (map col s) = Some q /\ (q == Qsum (map vol s))%Q.
Proof.
  intros H. unfold fsum, of_int.
  destruct (fold_left_accumulates float fadd
              (fun v => match v with Some q => q | None => 0%Q end)
              (map col s)) with (a := inject_Z 0) as (b & Hb & Eb).
  - intros x a Hx. apply in_map_iff in Hx. destruct Hx as (r & <- & Hr).
    rewrite (H r Hr). simpl. eexists. split; [reflexivity | ring].
  - exists b. split; [exact Hb|].
    rewrite Eb, map_map. 
    rewrite (Qsum_ext _ (fun r => match col r with Some q => q | None => 0%Q end) vol).
    + unfold inject_Z. ring.
    + intros r Hr. now rewrite (H r Hr).
Qed.

Lemma inject_Z_nonzero (z : Z) : z <> 0 -> Qeq_bool (inject_Z z) 0 = false.
Proof.
  intros H. destruct (Qeq_bool (inject_Z z) 0) eqn:E; [|reflexivity].
  apply Qeq_bool_eq in E. unfold Qeq in E. simpl in E. lia.
Qed.

(** The weight [1/n_j * 1/n_jm * 1/n_jmd] of a stratum, as the loop
    evaluates it from left to right. *)
Lemma stratum_weight (n_j n_jm n_jmd : Z) :
  n_j <> 0 -> n_jm <> 0 -> n_jmd <> 0 ->
  exists w,
    fdiv (fmul (fdiv (fmul (fdiv (of_int 1) (of_int n_j)) (of_int 1))
                     (of_int n_jm))
               (of_int 1))
         (of_int n_jmd) = Some w
    /\ (w == 1 / inject_Z n_j * (1 / inject_Z n_jm) * (1 / inject_Z n_jmd))%Q.
Proof.
  intros Hj Hjm Hjmd. unfold of_int. simpl.
  rewrite (inject_Z_nonzero _ Hj). simpl.
  rewrite (inject_Z_nonzero _ Hjm). simpl.
  rewrite (inject_Z_nonzero _ Hjmd).
  eexists. split; [reflexivity|].
  assert (~ inject_Z n_j == 0)%Q by (unfold Qeq; simpl; lia).
  assert (~ inject_Z n_jm == 0)%Q by (unfold Qeq; simpl; lia).
  assert (~ inject_Z n_jmd == 0)%Q by (unfold Qeq; simpl; lia).
  change (inject_Z 1) with 1%Q. field. repeat split; assumption.
Qed.

Lemma count_map (A B : Type) (f : A -> B) (l : list A) :
  count (map f l) = count l.
Proof. unfold count. now rewrite length_map. Qed.

(** One step of the inner loop of [get_AADPT] on finite volumes. *)
Lemma get_AADPT_step (df : list D24.row) (count_col : D24.row -> float)
    (vol : D24.row -> Q) (n_j n_jm m d : Z) (a : Q) :
  (forall r, In r df -> count_col r = Some (vol r)) ->
  n_j <> 0 -> n_jm <> 0 ->
  exists b,
    (let volumes := map count_col (stratum df m d) in
     if negb (count volumes =? 0) then
       fadd (Some a)
         (fmul (fdiv (fmul (fdiv (fmul (fdiv (of_int 1) (of_int n_j))
                                       (of_int 1))
                                 (of_int n_jm))
                           (of_int 1))
                     (of_int (count volumes)))
               (fsum volumes))
     else Some a) = Some b
    /\ (b == a + (if negb (count (stratum df m d) =? 0)
                  then 1 / inject_Z n_j
                       * (1 / inject_Z n_jm * stratum_mean vol (stratum df m d))
                  else 0))%Q.
Proof.
  intros Hfin Hj Hjm. cbv zeta. rewrite count_map.
  destruct (count (stratum df m d) =? 0) eqn:E.
  - exists a. split; [reflexivity | simpl; ring].
  - apply Z.eqb_neq in E. cbn [negb].
    destruct (stratum_weight n_j n_jm _ Hj Hjm E) as (w & Hw & Ew).
    destruct (fsum_finite _ count_col vol (stratum df m d)) as (s & Hs & Es).
    { intros r Hr. apply Hfin. unfold stratum in Hr.
      now apply filter_In in Hr. }
    rewrite Hw, Hs. simpl. eexists. split; [reflexivity|].
    rewrite Ew, Es. unfold stratum_mean.
    assert (~ inject_Z n_j == 0)%Q by (unfold Qeq; simpl; lia).
    assert (~ inject_Z n_jm == 0)%Q by (unfold Qeq; simpl; lia).
    assert (~ inject_Z (count (stratum df m d)) == 0)%Q
      by (unfold Qeq; simpl; lia).
    field. repeat split; assumption.
Qed.

(** The loop of [get_AADPT] computes the stratified average on every table
    of finite volumes. *)
Lemma get_AADPT_finite (df : list D24.row) (count_col : D24.row -> float)
    (vol : D24.row -> Q) :
  (forall r, In r df -> count_col r = Some (vol r)) ->
  exists q,
    get_AADPT df count_col = Some q /\ (q == AADPT_stratified df vol)%Q.
Proof.
  intros Hfin. destruct df as [|r0 df0] eqn:Edf.
  - exists (inject_Z 0). split; reflexivity.
  - rewrite <- Edf in *. unfold get_AADPT, AADPT_stratified.
    set (months := unique (map (fun r => month (D24.date r)) df)).
    set (dayofweeks := unique (map (fun r => dayofweek (D24.date r)) df)).
    assert (Hj : count months <> 0)
      by (unfold months; rewrite Edf; unfold count; simpl; lia).
    assert (Hjm : count dayofweeks <> 0)
      by (unfold dayofweeks; rewrite Edf; unfold count; simpl; lia).
    cbv zeta.
    destruct (fold_left_accumulates Z
      (fun AADPT m =>
         fold_left
           (fun AADPT d =>
              if negb (count (map count_col (stratum df m d)) =? 0) then
                fadd AADPT
                  (fmul (fdiv (fmul (fdiv (fmul (fdiv (of_int 1)
                                                      (of_int (count months)))
                                                (of_int 1))
                                          (of_int (count dayofweeks)))
                                    (of_int 1))
                              (of_int (count (map count_col (stratum df m d)))))
                        (fsum (map count_col (stratum df m d))))
              else AADPT)
           dayofweeks AADPT)
      (fun m =>
         1 / inject_Z (count months)
         * (1 / inject_Z (count dayofweeks)
            * Qsum (map (fun d => stratum_mean vol (stratum df m d))
                        (filter (fun d => negb (count (stratum df m d) =? 0))
                                dayofweeks))))%Q
      months) with (a := inject_Z 0) as (q & Hq & Eq).
    + intros m a _.
      destruct (fold_left_accumulates Z
        (fun AADPT d =>
           if negb (count (map count_col (stratum df m d)) =? 0) then
             fadd AADPT
               (fmul (fdiv (fmul (fdiv (fmul (fdiv (of_int 1)
                                                   (of_int (count months)))
                                             (of_int 1))
                                       (of_int (count dayofweeks)))
                                 (of_int 1))
                           (of_int (count (map count_col (stratum df m d)))))
                     (fsum (map count_col (stratum df m d))))
           else AADPT)
        (fun d =>
           if negb (count (stratum df m d) =? 0)
           then 1 / inject_Z (count months)
                * (1 / inject_Z (count dayofweeks)
                   * stratum_mean vol (stratum df m d))
           else 0)%Q
        dayofweeks) with (a := a) as (b & Hb & Eb).
      * intros d c _.
        exact (get_AADPT_step df count_col vol _ _ m d c Hfin Hj Hjm).
      * exists b. split; [exact Hb|]. rewrite Eb.
        rewrite (Qsum_filter Z (fun d => negb (count (stratum df m d) =? 0))
                   (fun d => 1 / inject_Z (count months)
                             * (1 / inject_Z (count dayofweeks)
                                * stratum_mean vol (stratum df m d)))%Q).
        rewrite (Qsum_scale (1 / inject_Z (count months))).
        rewrite (Qsum_scale (1 / inject_Z (count dayofweeks))).
        reflexivity.
    + exists q. split; [exact Hq|]. rewrite Eq.
      rewrite (Qsum_scale (1 / inject_Z (count months))).
      rewrite Edf at 1. unfold inject_Z at 1. ring.
Qed.

Lemma Qplus_nonneg (a b : Q) : (0 <= a -> 0 <= b -> 0 <= a + b)%Q.
Proof.
  intros Ha Hb. rewrite <- (Qplus_0_r 0). now apply Qplus_le_compat.
Qed.

Lemma stratum_mean_nonneg (vol : D24.row -> Q) (s : list D24.row) :
  (forall r, In r s -> (0 <= vol r)%Q) -> (0 <= stratum_mean vol s)%Q.
Proof.
  intros H. unfold stratum_mean, Qdiv. apply Qmult_le_0_compat.
  - apply Qsum_nonneg. intros x Hx. apply in_map_iff in Hx.
    destruct Hx as (r & <- & Hr). now apply H.
  - apply Qinv_le_0_compat. unfold Qle, count. simpl. lia.
Qed.

Lemma inv_count_nonneg (A : Type) (l : list A) :
  (0 <= 1 / inject_Z (count l))%Q.
Proof.
  unfold Qdiv. apply Qmult_le_0_compat; [discriminate|].
  apply Qinv_le_0_compat. unfold Qle, count. simpl. lia.
Qed.

Lemma AADPT_stratified_nonneg (df : list D24.row) (vol : D24.row -> Q) :
  (forall r, In r df -> (0 <= vol r)%Q) -> (0 <= AADPT_stratified df vol)%Q.
Proof.
  intros H. unfold AADPT_stratified. destruct df as [|r0 df0] eqn:Edf.
  - apply Qle_refl.
  - rewrite <- Edf in *. apply Qmult_le_0_compat; [apply inv_count_nonneg|].
    apply Qsum_nonneg. intros x Hx. apply in_map_iff in Hx.
    destruct Hx as (m & <- & _).
    apply Qmult_le_0_compat; [apply inv_count_nonneg|].
    apply Qsum_nonneg. intros y Hy. apply in_map_iff in Hy.
    destruct Hy as (d & <- & _).
    apply stratum_mean_nonneg. intros r Hr. apply H.
    unfold stratum in Hr. now apply filter_In in Hr.
Qed.


Lemma get_AADPT_nonneg (df : list D24.row) (c : D24.row -> float) :
  valid_volumes df ->
  In c [D24.ped_N; D24.ped_S; D24.ped_W; D24.ped_E] ->
  exists q, get_AADPT df c = Some q /\ (0 <= q)%Q.
Proof.
  intros Hv Hc.
  destruct (get_AADPT_finite df c (vol_of c)) as (q & Hq & Eq).
  - intros r Hr. destruct (Hv r Hr c Hc) as (v & Hcv & _).
    unfold vol_of. now rewrite Hcv.
  - exists q. split; [exact Hq|]. rewrite Eq.
    apply AADPT_stratified_nonneg. intros r Hr.
    destruct (Hv r Hr c Hc) as (v & Hcv & Hpos).
    unfold vol_of. now rewrite Hcv.
Qed.

(** C4, as the code has it.  On every table of valid, non-negative daily
    volumes the four AADPTs of [get_AADPT] are non-negative numbers and
    [get_true_ratio] returns their total; when the total is 0 the four
    ratios are the number 0 (not NaN); otherwise each ratio is the quotient
    of the crossing's AADPT by the total, it is not negative, and the four
    quotients add up to 1 in exact arithmetic.  (In binary64 each quotient
    is rounded and the sum is 1 up to rounding only: see
    [get_true_ratio_binary64_sum].) *)
Theorem get_true_ratio_quotients (df : list D24.row) :
  valid_volumes df ->
  exists qN qS qW qE,
    get_AADPT df D24.ped_N = Some qN /\ get_AADPT df D24.ped_S = Some qS
    /\ get_AADPT df D24.ped_W = Some qW /\ get_AADPT df D24.ped_E = Some qE
    /\ (0 <= qN /\ 0 <= qS /\ 0 <= qW /\ 0 <= qE)%Q
    /\ let tot := (qN + qS + qW + qE)%Q in
       ((tot == 0)%Q ->
        get_true_ratio df
        = mk_true_ratio (Some tot) (Some 0%Q) (Some 0%Q) (Some 0%Q)
            (Some 0%Q))
       /\ (~ (tot == 0)%Q ->
           get_true_ratio df
           = mk_true_ratio (Some tot) (Some (qN / tot)%Q) (Some (qS / tot)%Q)
               (Some (qW / tot)%Q) (Some (qE / tot)%Q)
           /\ (0 <= qN / tot /\ 0 <= qS / tot /\ 0 <= qW / tot
               /\ 0 <= qE / tot)%Q
           /\ (qN / tot + qS / tot + qW / tot + qE / tot == 1)%Q).
Proof.
  intros Hv.
  destruct (get_AADPT_nonneg df D24.ped_N Hv) as (qN & HN & PN);
    [simpl; tauto|].
  destruct (get_AADPT_nonneg df D24.ped_S Hv) as (qS & HS & PS);
    [simpl; tauto|].
  destruct (get_AADPT_nonneg df D24.ped_W Hv) as (qW & HW & PW);
    [simpl; tauto|].
  destruct (get_AADPT_nonneg df D24.ped_E Hv) as (qE & HE & PE);
    [simpl; tauto|].
  exists qN, qS, qW, qE. repeat (split; [assumption|]).
  split; [repeat split; assumption|].
  cbv zeta. unfold get_true_ratio. rewrite HN, HS, HW, HE.
  unfold fadd, lift2, feq0, fdiv.
  set (tot := (qN + qS + qW + qE)%Q).
  assert (Htot : (0 <= tot)%Q).
  { unfold tot. repeat apply Qplus_nonneg; assumption. }
  split.
  - intros Hz. apply Qeq_bool_iff in Hz. rewrite Hz. reflexivity.
  - intros Hnz.
    assert (E : Qeq_bool tot 0 = false).
    { destruct (Qeq_bool tot 0) eqn:E'; [|reflexivity].
      apply Qeq_bool_eq in E'. contradiction. }
    rewrite E. split; [reflexivity|].
    assert (Hpos : (0 < / tot)%Q).
    { apply Qinv_lt_0_compat. apply Qle_lteq in Htot.
      destruct Htot as [Hlt|Heq]; [exact Hlt|].
      exfalso. apply Hnz. now symmetry. }
    split.
    + unfold Qdiv.
      repeat split; apply Qmult_le_0_compat;
        (assumption || now apply Qlt_le_weak).
    + unfold tot in *. field. exact Hnz.
Qed.

Lemma get_true_ratio_quotients_witness :
  exists qN qS qW qE,
    get_AADPT two_days D24.ped_N = Some qN
    /\ get_AADPT two_days D24.ped_S = Some qS
    /\ get_AADPT two_days D24.ped_W = Some qW
    /\ get_AADPT two_days D24.ped_E = Some qE
    /\ (0 <= qN /\ 0 <= qS /\ 0 <= qW /\ 0 <= qE)%Q
    /\ let tot := (qN + qS + qW + qE)%Q in
       ((tot == 0)%Q ->
        get_true_ratio two_days
        = mk_true_ratio (Some tot) (Some 0%Q) (Some 0%Q) (Some 0%Q)
            (Some 0%Q))
       /\ (~ (tot == 0)%Q ->
           get_true_ratio two_days
           = mk_true_ratio (Some tot) (Some (qN / tot)%Q) (Some (qS / tot)%Q)
               (Some (qW / tot)%Q) (Some (qE / tot)%Q)
           /\ (0 <= qN / tot /\ 0 <= qS / tot /\ 0 <= qW / tot
               /\ 0 <= qE / tot)%Q
           /\ (qN / tot + qS / tot + qW / tot + qE / tot == 1)%Q).
Proof.
  apply (get_true_ratio_quotients two_days).
  intros r Hr c Hc. simpl in Hr.
  destruct Hr as [<-|[<-|[]]]; simpl in Hc;
    destruct Hc as [<-|[<-|[<-|[<-|[]]]]]; simpl;
    eexists; (split; [reflexivity | unfold Qle; simpl; lia]).
Defined.

(** In binary64 the ratios of [F64.one_day] are the doubles nearest to 1/3,
    1/4, 1/3 and 1/12 (the total is 12): Python's [rN + rS + rW + rE] is
    the double just below 1, and the four numbers returned add up, as real
    numbers, to [1 - 3 / 2^56]. *)
Lemma get_true_ratio_binary64_sum :
  let t := F64.get_true_ratio F64.one_day in
  PrimFloat.eqb (F64.AADPT_tot t) (F64.of_Z 12) = true
  /\ PrimFloat.eqb
       (PrimFloat.add
          (PrimFloat.add
             (PrimFloat.add (F64.ratio_N_true t) (F64.ratio_S_true t))
             (F64.ratio_W_true t))
          (F64.ratio_E_true t))
       (F64.of_Z 1) = false
  /\ F64.exact_sum [F64.ratio_N_true t; F64.ratio_S_true t;
                    F64.ratio_W_true t; F64.ratio_E_true t]
     = Some (72057594037927933 # 72057594037927936)%Q.
Proof. vm_compute. repeat split. Qed.

(** [unique] keeps every value once. *)
Lemma unique_In (x : Z) (l : list Z) : In x (unique l) <-> In x l.
Proof.
  induction l as [|y l IH]; simpl; [tauto|].
  rewrite filter_In, IH. destruct (Z.eq_dec y x) as [->|Hne].
  - tauto.
  - split.
    + intros [H|[H _]]; tauto.
    + intros [H|H]; [tauto|]. right. split; [exact H|].
      apply negb_true_iff, Z.eqb_neq. congruence.
Qed.

Lemma unique_NoDup (l : list Z) : NoDup (unique l).
Proof.
  induction l as [|y l IH]; simpl; constructor.
  - rewrite filter_In. intros [_ H].
    now rewrite Z.eqb_refl in H.
  - now apply NoDup_filter.
Qed.

(** C5. On every table of valid daily volumes [get_AADPT] returns the
    three-level stratified average: the sum over the months of the sum
    over the weekdays of the mean volume of the (month, weekday) stratum,
    divided by the numbers of distinct months and of distinct weekdays of
    the whole table, the strata without a day left out of the sums; on the
    empty table it returns 0. *)
Theorem get_AADPT_is_stratified_average (df : list D24.row)
    (count_col : D24.row -> float) (vol : D24.row -> Q) :
  (forall r, In r df -> count_col r = Some (vol r)) ->
  (exists q, get_AADPT df count_col = Some q
             /\ (q == AADPT_stratified df vol)%Q)
  /\ get_AADPT [] count_col = of_int 0.
Proof.
  intros Hfin. split.
  - now apply get_AADPT_finite.
  - reflexivity.
Qed.

Lemma get_AADPT_is_stratified_average_witness :
  (exists q, get_AADPT two_days D24.ped_N = Some q
             /\ (q == AADPT_stratified two_days (vol_of D24.ped_N))%Q)
  /\ get_AADPT [] D24.ped_N = of_int 0.
Proof.
  apply (get_AADPT_is_stratified_average two_days D24.ped_N
           (vol_of D24.ped_N)).
  intros r Hr. simpl in Hr. destruct Hr as [<-|[<-|[]]]; reflexivity.
Defined.

(** ** The sub-daily filters of [get_24h_count_df] *)

(** The daily frame is built from [df_int], whatever the flags are. *)
Lemma get_24h_count_df_ignores_flags (data : list Raw.row) (n : string)
    (H15 H24 T24 : Z) :
  get_24h_count_df data n H15 H24 T24
  = valid_days H24 T24
      (daily_adjusted
         (flag_rows H15 (filter (fun r => String.eqb (Raw.name r) n) data))).
Proof. reflexivity. Qed.

(** C1, evaluated on the code.  With the default thresholds, the day
    [capped_day] is retained with the record of 101 pedestrians (above
    [H15 = 100]) inside its sum and its count: adjusted north volume 196
    over 96 records, one of them flagged F2.  Aggregating the selected rows,
    or leaving the record out of the input, gives 96 over 95 records. *)
Theorem get_24h_count_df_counts_capped_record :
  map north_view (get_24h_count_df capped_day "A" 100 500 72)
  = [(Some 196%Q, 96, 1)]
  /\ map north_view (get_24h_count_df_filtered capped_day "A" 100 500 72)
     = [(Some 96%Q, 95, 0)]
  /\ map north_view (get_24h_count_df (tl capped_day) "A" 100 500 72)
     = [(Some 96%Q, 95, 0)].
Proof. vm_compute. repeat split. Qed.

(** ** The combined error of [get_ratio_errors] *)

(** The sampling branch averages the four directions. *)
Lemma sample_errors_four_way_mean (t : true_ratio) (drawn : list D8.row) :
  Err.ratio_avg_errs (sample_errors t drawn)
  = four_way_mean (sample_errors t drawn).
Proof. reflexivity. Qed.

(** The [stc_num == 1] branch takes the north error twice and leaves the
    south error out. *)
Lemma day_errors_average (t : true_ratio) (r : D8.row) :
  let e := day_errors t r in
  Err.ratio_avg_errs e
  = fmul (Some (1 # 4)%Q)
      (fadd (fadd (fadd (fabs (Err.ratio_E_errs e)) (fabs (Err.ratio_W_errs e)))
                  (fabs (Err.ratio_N_errs e)))
            (fabs (Err.ratio_N_errs e))).
Proof. reflexivity. Qed.

(** C2, evaluated on the code.  For the day with counts (1, 3, 0, 0) and
    true ratios of 1/4 each, the directional errors are 0, 5000/2501,
    -2500/2501 and -2500/2501; the combined error returned with
    [stc_num = 1] is 1250/2501, and the mean of the four absolute errors
    is 2500/2501. *)
Theorem get_ratio_errors_average_skips_south :
  exists e,
    fst (get_ratio_errors unit no_choice tt one_stc_day even_day 1 100)
    = Ok [e]
    /\ option_map Qred (Err.ratio_N_errs e) = Some 0%Q
    /\ option_map Qred (Err.ratio_S_errs e) = Some (5000 # 2501)%Q
    /\ option_map Qred (Err.ratio_avg_errs e) = Some (1250 # 2501)%Q
    /\ option_map Qred (four_way_mean e) = Some (2500 # 2501)%Q.
Proof. eexists. vm_compute. repeat split. Qed.

(** ** The random draws of [get_ratio_errors] *)


Lemma trials_draws (RandomState : Type)
    (choice : RandomState -> nat -> nat -> list nat * RandomState)
    (df_int_8h : list D8.row) (t : true_ratio) (stc_num : Z) :
  0 <= stc_num <= count df_int_8h ->
  forall (repeat : nat) (g : RandomState),
    trials RandomState choice repeat g df_int_8h t stc_num
    = (Ok (map (fun locs => sample_errors t (take locs df_int_8h))
               (fst (draws choice repeat g (List.length df_int_8h)
                           (Z.to_nat stc_num)))),
       snd (draws choice repeat g (List.length df_int_8h) (Z.to_nat stc_num))).
Proof.
  intros Hk. induction repeat as [|repeat IH]; intros g; simpl.
  - reflexivity.
  - unfold sample.
    assert (E : (stc_num <? 0) || (count df_int_8h <? stc_num) = false).
    { apply orb_false_iff. split; [apply Z.ltb_ge | apply Z.ltb_ge]; lia. }
    rewrite E.
    destruct (choice g (List.length df_int_8h) (Z.to_nat stc_num))
      as [locs g'].
    rewrite IH.
    destruct (draws choice repeat g' (List.length df_int_8h)
                (Z.to_nat stc_num)) as [rest g''].
    reflexivity.
Qed.



(** ** Too few short-term days *)

(** With [repeat = 0] the loop body never runs: a table of one day and
    [stc_num = 2] give an empty result and no error. *)
Lemma get_ratio_errors_no_trial_no_error :
  get_ratio_errors nat rotating_choice 0%nat one_stc_day two_days 2 0
  = (Ok [], 0%nat).
Proof. reflexivity. Qed.

(** C6, as the code has it.  When the table of eligible days has fewer
    than [stc_num] days, [stc_num > 1] and at least one trial is asked for,
    [get_ratio_errors] raises the [ValueError] of the first draw; nothing is
    drawn and no row is returned. *)
Theorem get_ratio_errors_too_few_days (RandomState : Type)
    (choice : RandomState -> nat -> nat -> list nat * RandomState)
    (g : RandomState) (df_int_8h : list D8.row) (df_int_24h : list D24.row)
    (stc_num repeat : Z) :
  count df_int_8h < stc_num -> 1 < stc_num -> 1 <= repeat ->
  get_ratio_errors RandomState choice g df_int_8h df_int_24h stc_num repeat
  = (ValueError, g).
Proof.
  intros Hfew Hk Hrep. unfold get_ratio_errors.
  assert (E1 : (stc_num =? 1) = false) by (apply Z.eqb_neq; lia).
  rewrite E1.
  destruct (Z.to_nat repeat) as [|n] eqn:En; [lia|].
  simpl. unfold sample.
  assert (E2 : (stc_num <? 0) || (count df_int_8h <? stc_num) = true).
  { apply orb_true_iff. right. apply Z.ltb_lt. exact Hfew. }
  now rewrite E2.
Qed.

Lemma get_ratio_errors_too_few_days_witness :
  get_ratio_errors nat rotating_choice 0%nat one_stc_day two_days 2 100
  = (ValueError, 0%nat).
Proof.
  apply (get_ratio_errors_too_few_days nat rotating_choice 0%nat one_stc_day
           two_days 2 100).
  - vm_compute. reflexivity.
  - lia.
  - lia.
Defined.

(** ** The short-term days of [get_8h_count_df] *)

Lemma isin_In (x : Z) (values : list Z) : isin x values = true <-> In x values.
Proof.
  unfold isin. rewrite existsb_exists. split.
  - intros (y & Hy & E). apply Z.eqb_eq in E. now subst.
  - intros H. exists x. split; [exact H | apply Z.eqb_refl].
Qed.

(** C7. No row of the frame returned by [get_8h_count_df] carries a date
    of the holiday list, whatever its weekday and its month are. *)
Theorem get_8h_count_df_excludes_holidays (data : list Raw.row)
    (intersection_name : string) (holidays : list Z) :
  Forall (fun r => ~ In (D8.date r) holidays)
         (get_8h_count_df data intersection_name holidays).
Proof.
  apply Forall_forall. intros r Hr. unfold get_8h_count_df in Hr.
  apply filter_In in Hr. destruct Hr as [Hr _].
  apply in_map_iff in Hr. destruct Hr as (s & <- & Hs).
  apply filter_In in Hs. destruct Hs as [_ Hh].
  simpl. intros Hin. apply isin_In in Hin.
  rewrite Hin in Hh. discriminate Hh.
Qed.

(** Of the Tuesday, the holiday Wednesday, the empty Thursday and the
    Friday of [stc_raw], the Tuesday alone is a short-term day; its
    record of 10:00 is outside the three windows. *)
Example get_8h_count_df_stc_raw :
  get_8h_count_df stc_raw "A" stc_holidays
  = [D8.mk tue_2022_05_03 2 1 0 0 5 3]
  /\ get_8h_count_df stc_raw "A" []
     = [D8.mk tue_2022_05_03 2 1 0 0 5 3;
        D8.mk (tue_2022_05_03 + SECONDS_PER_DAY) 5 0 0 0 3 5].
Proof. vm_compute. split; reflexivity. Qed.

Lemma sum_col_nonneg (A : Type) (col : A -> Z) (g : list A) :
  (forall x, In x g -> 0 <= col x) -> 0 <= sum_col col g.
Proof.
  unfold sum_col. induction g as [|x g IH]; simpl; intros H; [lia|].
  assert (0 <= col x) by (apply H; now left).
  assert (0 <= fold_right Z.add 0 (map col g))
    by (apply IH; intros y Hy; apply H; now right).
  lia.
Qed.

Lemma resample_group (A : Type) (freq : Z) (index : A -> Z) (df : list A)
    (b : Z) (g : list A) :
  In (b, g) (resample freq index df) -> forall x, In x g -> In x df.
Proof.
  unfold resample. intros H x Hx. apply in_map_iff in H.
  destruct H as (b' & E & _). inversion E; subst.
  now apply filter_In in Hx.
Qed.

(** The rows of the daily sums of [get_8h_count_df] are sums of
    non-negative counts. *)
Lemma get_8h_count_df_rows (data : list Raw.row) (intersection_name : string)
    (holidays : list Z) (r : D8.row) :
  nonneg_counts data ->
  In r (get_8h_count_df data intersection_name holidays) ->
  exists s, r = add_total s /\ nonneg_sums s /\ D8.total r <> 0.
Proof.
  intros Hdata Hr. unfold get_8h_count_df in Hr.
  apply filter_In in Hr. destruct Hr as [Hr Hnz].
  apply negb_true_iff, Z.eqb_neq in Hnz.
  apply in_map_iff in Hr. destruct Hr as (s & <- & Hs).
  exists s. split; [reflexivity|]. split; [|exact Hnz].
  apply filter_In in Hs. destruct Hs as [Hs _].
  apply filter_In in Hs. destruct Hs as [Hs _].
  apply in_map_iff in Hs. destruct Hs as ([d g] & <- & Hg).
  assert (Hhours : forall h, In h g -> nonneg_sums h).
  { intros h Hh. apply (resample_group _ _ _ _ _ _ Hg) in Hh.
    assert (Hh' : exists b gh,
               h = Sums.mk b (sum_col Raw.ped_N gh) (sum_col Raw.ped_S gh)
                     (sum_col Raw.ped_W gh) (sum_col Raw.ped_E gh)
                     (sum_col Raw.vol_vehicle gh)
               /\ forall x, In x gh -> In x data).
    { repeat (apply in_app_or in Hh; destruct Hh as [Hh|Hh]);
        apply filter_In in Hh; destruct Hh as [Hh _];
        apply in_map_iff in Hh; destruct Hh as ([b gh] & <- & Hgh);
        exists b, gh; (split; [reflexivity|]);
        intros x Hx; apply (resample_group _ _ _ _ _ _ Hgh) in Hx;
        now apply filter_In in Hx. }
    destruct Hh' as (b & gh & -> & Hsub).
    unfold nonneg_sums; simpl.
    repeat split; apply sum_col_nonneg; intros x Hx;
      apply Hsub, Hdata in Hx; tauto. }
  unfold nonneg_sums; simpl.
  repeat split; apply sum_col_nonneg; intros x Hx;
    apply Hhours in Hx; unfold nonneg_sums in Hx; tauto.
Qed.

(** The ratios of the [stc_num == 1] branch are these divisions. *)
Lemma day_errors_ratios (t : true_ratio) (r : D8.row) :
  let ratio c := fdiv (of_int (c r)) (of_int (D8.total r)) in
  Err.ratio_N_errs (day_errors t r) = ratio_err (ratio D8.ped_N) (ratio_N_true t)
  /\ Err.ratio_S_errs (day_errors t r)
     = ratio_err (ratio D8.ped_S) (ratio_S_true t)
  /\ Err.ratio_W_errs (day_errors t r)
     = ratio_err (ratio D8.ped_W) (ratio_W_true t)
  /\ Err.ratio_E_errs (day_errors t r)
     = ratio_err (ratio D8.ped_E) (ratio_E_true t).
Proof. repeat split. Qed.

(** ** The confidence summary *)

Section ConfidenceProperties.
Local Open Scope R_scope.

Lemma rint_error (y : R) : Rabs (IZR (rint y) - y) <= 1 / 2.
Proof.
  unfold rint. destruct (base_fp y) as [Hge Hlt].
  unfold frac_part in *.
  destruct (Rlt_dec (y - IZR (Int_part y)) (1 / 2)) as [H1|H1].
  - apply Rabs_le. lra.
  - destruct (Rlt_dec (1 / 2) (y - IZR (Int_part y))) as [H2|H2].
    + rewrite plus_IZR. apply Rabs_le. lra.
    + destruct (Z.even (Int_part y)).
      * apply Rabs_le. lra.
      * rewrite plus_IZR. apply Rabs_le. lra.
Qed.

Lemma Rabs_le_bounds (a b : R) : Rabs a <= b -> - b <= a <= b.
Proof.
  unfold Rabs. destruct (Rcase_abs a); lra.
Qed.

Lemma rint_near (y : R) (k : Z) :
  IZR k - 1 / 2 < y < IZR k + 1 / 2 -> rint y = k.
Proof.
  intros [Hlo Hhi]. unfold rint. destruct (base_fp y) as [Hge Hlt].
  unfold frac_part in *. set (n := Int_part y) in *.
  assert (Hn : (n = k \/ n = k - 1)%Z).
  { assert (IZR n < IZR k + 1) by lra.
    assert (IZR k - 2 < IZR n) by lra.
    rewrite <- (plus_IZR k 1) in H. apply lt_IZR in H.
    rewrite <- (minus_IZR k 2) in H0. apply lt_IZR in H0. lia. }
  destruct Hn as [-> | ->].
  - destruct (Rlt_dec (y - IZR k) (1 / 2)) as [H1|H1]; [reflexivity | lra].
  - rewrite minus_IZR in *.
    destruct (Rlt_dec (y - (IZR k - 1)) (1 / 2)) as [H1|H1]; [lra|].
    destruct (Rlt_dec (1 / 2) (y - (IZR k - 1))) as [H2|H2]; [lia | lra].
Qed.

Lemma round3_rounded (x : R) : rounded_to_3 (round3 x) x.
Proof.
  unfold rounded_to_3, round3. split.
  - now exists (rint (x * 1000)).
  - pose proof (rint_error (x * 1000)) as H.
    apply Rabs_le. apply Rabs_le_bounds in H. lra.
Qed.

Lemma Rsum_nonneg (l : list R) :
  (forall x, In x l -> 0 <= x) -> 0 <= Rsum l.
Proof.
  induction l as [|x l IH]; simpl; intros H; [lra|].
  assert (0 <= x) by (apply H; now left).
  assert (0 <= Rsum l) by (apply IH; intros y Hy; apply H; now right).
  lra.
Qed.

Lemma length_pos (errs : list R) : errs <> [] -> 0 < INR (List.length errs).
Proof.
  intros H. destruct errs as [|x l]; [contradiction|].
  apply lt_0_INR. simpl. lia.
Qed.

(** [np.std] is the population standard deviation. *)
Lemma std_population_sd (errs : list R) :
  errs <> [] -> population_sd errs (std errs).
Proof.
  intros Hne. unfold population_sd, std. split; [apply sqrt_pos|].
  rewrite sqrt_sqrt.
  - unfold mean at 1. rewrite length_map. f_equal. f_equal.
    apply map_ext. intros x. apply pow2_abs.
  - unfold mean at 1. rewrite length_map.
    apply Rmult_le_pos.
    + apply Rsum_nonneg. intros y Hy. apply in_map_iff in Hy.
      destruct Hy as (x & <- & _). apply pow2_ge_0.
    + apply Rlt_le, Rinv_0_lt_compat, length_pos, Hne.
Qed.

Lemma mean_errs_example : mean errs_example = 0.
Proof. unfold mean, errs_example, Rsum. simpl. field. Qed.

Lemma std_errs_example : std errs_example = sqrt (2 / 3).
Proof.
  unfold std. rewrite mean_errs_example. f_equal.
  unfold mean, errs_example, Rsum. simpl.
  replace (-1 - 0) with (- (1)) by lra.
  replace (0 - 0) with 0 by lra.
  replace (1 - 0) with 1 by lra.
  rewrite Rabs_Ropp, Rabs_R0, Rabs_R1. field.
Qed.

Lemma round3_0 : round3 0 = 0.
Proof.
  unfold round3. rewrite (rint_near (0 * 1000) 0); lra.
Qed.

(** C8. For a non-empty array and a percentile between 0 and 100,
    [get_confidence_interval] returns, each within the rounding tolerance
    of 1/2000, the numbers [mean - 1.65 sigma], [mean],
    [mean + 1.65 sigma] and the percentile of [np.percentile], where
    [sigma] is the population standard deviation.  For [-1, 0, 1] the
    returned mean is 0 and the bounds are within that tolerance of
    [-1.65 sqrt(2/3)] and [1.65 sqrt(2/3)]. *)
Theorem get_confidence_interval_formula (errs : list R) (p : Z) :
  errs <> [] -> (0 <= p <= 100)%Z ->
  (exists lcb m ucb pct sigma,
     get_confidence_interval errs p = Some (lcb, m, ucb, pct)
     /\ population_sd errs sigma
     /\ Rabs (lcb - (mean errs - 165 / 100 * sigma)) <= 1 / 2000
     /\ Rabs (m - mean errs) <= 1 / 2000
     /\ Rabs (ucb - (mean errs + 165 / 100 * sigma)) <= 1 / 2000
     /\ Rabs (pct - percentile_at errs p) <= 1 / 2000)
  /\ (exists lcb ucb pct,
        get_confidence_interval errs_example p = Some (lcb, 0, ucb, pct)
        /\ Rabs (lcb - - (165 / 100 * sqrt (2 / 3))) <= 1 / 2000
        /\ Rabs (ucb - 165 / 100 * sqrt (2 / 3)) <= 1 / 2000).
Proof.
  intros Hne Hp.
  assert (Hrange : ((0 <=? p) && (p <=? 100))%Z = true).
  { apply andb_true_iff. split; apply Z.leb_le; lia. }
  split.
  - destruct errs as [|x l] eqn:E; [contradiction|]. rewrite <- E in *.
    exists (round3 (mean errs - Zstar * std errs)), (round3 (mean errs)),
      (round3 (mean errs + Zstar * std errs)),
      (round3 (percentile_at errs p)), (std errs).
    split.
    { unfold get_confidence_interval. rewrite E at 1. now rewrite Hrange. }
    split; [now apply std_population_sd|].
    unfold Zstar. repeat split; apply round3_rounded.
  - exists (round3 (0 - Zstar * sqrt (2 / 3))),
      (round3 (0 + Zstar * sqrt (2 / 3))),
      (round3 (percentile_at errs_example p)).
    split.
    { assert (H : get_confidence_interval errs_example p
                  = Some (round3 (mean errs_example
                                  - Zstar * std errs_example),
                          round3 (mean errs_example),
                          round3 (mean errs_example
                                  + Zstar * std errs_example),
                          round3 (percentile_at errs_example p))).
      { unfold get_confidence_interval, errs_example.
        rewrite Hrange. reflexivity. }
      rewrite H, mean_errs_example, std_errs_example, round3_0.
      reflexivity. }
    unfold Zstar. split.
    + destruct (round3_rounded (0 - 165 / 100 * sqrt (2 / 3))) as [_ H].
      apply Rabs_le. apply Rabs_le_bounds in H. lra.
    + destruct (round3_rounded (0 + 165 / 100 * sqrt (2 / 3))) as [_ H].
      apply Rabs_le. apply Rabs_le_bounds in H. lra.
Qed.

End ConfidenceProperties.

Section Rounding.
Local Open Scope R_scope.

Lemma get_confidence_interval_formula_witness :
  (exists lcb m ucb pct sigma,
     get_confidence_interval errs_example 85 = Some (lcb, m, ucb, pct)
     /\ population_sd errs_example sigma
     /\ Rabs (lcb - (mean errs_example - 165 / 100 * sigma)) <= 1 / 2000
     /\ Rabs (m - mean errs_example) <= 1 / 2000
     /\ Rabs (ucb - (mean errs_example + 165 / 100 * sigma)) <= 1 / 2000
     /\ Rabs (pct - percentile_at errs_example 85) <= 1 / 2000)
  /\ (exists lcb ucb pct,
        get_confidence_interval errs_example 85 = Some (lcb, 0, ucb, pct)
        /\ Rabs (lcb - - (165 / 100 * sqrt (2 / 3))) <= 1 / 2000
        /\ Rabs (ucb - 165 / 100 * sqrt (2 / 3)) <= 1 / 2000).
Proof.
  apply (get_confidence_interval_formula errs_example 85).
  - discriminate.
  - lia.
Defined.

(** The order statistics that [percentile_at] interpolates: [sort]
    returns its argument in ascending order. *)
Lemma insert_sorted_Permutation (x : R) (l : list R) :
  Permutation (x :: l) (insert_sorted x l).
Proof.
  induction l as [|y l IH]; simpl.
  - apply Permutation_refl.
  - destruct (Rle_dec x y).
    + apply Permutation_refl.
    + apply perm_trans with (y :: x :: l); [apply perm_swap|].
      now apply perm_skip.
Qed.

Lemma sort_Permutation (l : list R) : Permutation l (sort l).
Proof.
  induction l as [|x l IH]; simpl.
  - apply perm_nil.
  - apply perm_trans with (x :: sort l); [now apply perm_skip|].
    apply insert_sorted_Permutation.
Qed.

Lemma insert_sorted_Sorted (x : R) (l : list R) :
  Sorted Rle l -> Sorted Rle (insert_sorted x l).
Proof.
  induction l as [|y l IH]; simpl; intros Hs.
  - repeat constructor.
  - destruct (Rle_dec x y) as [Hxy|Hxy].
    + constructor; [exact Hs | now constructor].
    + inversion Hs as [|? ? Hl Hhd]; subst.
      constructor; [now apply IH|].
      destruct l as [|z l]; simpl.
      * constructor. lra.
      * destruct (Rle_dec x z); constructor; [lra|].
        inversion Hhd; subst. assumption.
Qed.

Lemma sort_Sorted (l : list R) : Sorted Rle (sort l).
Proof.
  induction l as [|x l IH]; simpl.
  - constructor.
  - now apply insert_sorted_Sorted.
Qed.

(** A tie goes to the even neighbour. *)
Lemma rint_tie (k : Z) :
  rint (IZR k + 1 / 2) = if Z.even k then k else (k + 1)%Z.
Proof.
  unfold rint, frac_part.
  assert (E : Int_part (IZR k + 1 / 2) = k).
  { symmetry. apply Int_part_spec. lra. }
  rewrite E.
  destruct (Rlt_dec (IZR k + 1 / 2 - IZR k) (1 / 2)) as [H|H]; [lra|].
  destruct (Rlt_dec (1 / 2) (IZR k + 1 / 2 - IZR k)) as [H'|H']; [lra|].
  reflexivity.
Qed.

(** C10. For a non-empty array and a percentile between 0 and 100, each
    of the four numbers that [get_confidence_interval] returns is the
    unrounded lower bound, mean, upper bound or percentile rounded to
    three decimal places: a multiple of 1/1000 at most 1/2000 away from
    it. *)
Theorem get_confidence_interval_rounded (errs : list R) (p : Z) :
  errs <> [] -> (0 <= p <= 100)%Z ->
  exists lcb m ucb pct,
    get_confidence_interval errs p = Some (lcb, m, ucb, pct)
    /\ rounded_to_3 lcb (mean errs - Zstar * std errs)
    /\ rounded_to_3 m (mean errs)
    /\ rounded_to_3 ucb (mean errs + Zstar * std errs)
    /\ rounded_to_3 pct (percentile_at errs p).
Proof.
  intros Hne Hp.
  assert (Hrange : ((0 <=? p) && (p <=? 100))%Z = true).
  { apply andb_true_iff. split; apply Z.leb_le; lia. }
  exists (round3 (mean errs - Zstar * std errs)), (round3 (mean errs)),
    (round3 (mean errs + Zstar * std errs)),
    (round3 (percentile_at errs p)).
  split.
  - unfold get_confidence_interval.
    destruct errs as [|x l]; [contradiction|].
    rewrite Hrange. reflexivity.
  - repeat split; apply round3_rounded.
Qed.

Lemma get_confidence_interval_rounded_witness :
  exists lcb m ucb pct,
    get_confidence_interval errs_example 85 = Some (lcb, m, ucb, pct)
    /\ rounded_to_3 lcb (mean errs_example - Zstar * std errs_example)
    /\ rounded_to_3 m (mean errs_example)
    /\ rounded_to_3 ucb (mean errs_example + Zstar * std errs_example)
    /\ rounded_to_3 pct (percentile_at errs_example 85).
Proof.
  apply (get_confidence_interval_rounded errs_example 85).
  - discriminate.
  - lia.
Defined.

(** The summary of the example array, digit by digit. *)
Lemma sort_errs_example : sort errs_example = [-1; 0; 1].
Proof.
  unfold sort, errs_example. simpl.
  destruct (Rle_dec 0 1); [|lra]. simpl.
  destruct (Rle_dec (-1) 0); [|lra]. reflexivity.
Qed.

Lemma percentile_errs_example : percentile_at errs_example 85 = 7 / 10.
Proof.
  unfold percentile_at. rewrite sort_errs_example.
  change (List.length errs_example) with 3%nat.
  change ((Z.of_nat 3 - 1) * 85 / 100)%Z with 1%Z.
  change (((Z.of_nat 3 - 1) * 85) mod 100)%Z with 70%Z.
  change (Z.of_nat 3 - 1)%Z with 2%Z.
  cbv zeta. change (Z.min (1 + 1) 2) with 2%Z.
  change (Z.to_nat 1) with 1%nat. change (Z.to_nat 2) with 2%nat.
  cbn [nth]. lra.
Qed.

Lemma sqrt_between (a b x : R) :
  0 <= a -> 0 <= b -> a * a < x < b * b -> a < sqrt x < b.
Proof.
  intros Ha Hb [H1 H2]. split.
  - rewrite <- (sqrt_square a Ha). apply sqrt_lt_1_alt. split; [nra | lra].
  - rewrite <- (sqrt_square b Hb). apply sqrt_lt_1_alt. split; [nra | lra].
Qed.

Lemma sqrt_two_thirds : 8164 / 10000 < sqrt (2 / 3) < 8165 / 10000.
Proof. apply sqrt_between; lra. Qed.

Example get_confidence_interval_errs_example :
  get_confidence_interval errs_example 85
  = Some (-1347 / 1000, 0, 1347 / 1000, 7 / 10).
Proof.
  unfold get_confidence_interval, errs_example.
  cbn [Z.leb Z.compare andb]. change [-1; 0; 1] with errs_example.
  rewrite mean_errs_example, std_errs_example, percentile_errs_example.
  rewrite round3_0. pose proof sqrt_two_thirds as Hs.
  unfold round3, Zstar.
  rewrite (rint_near ((0 - 165 / 100 * sqrt (2 / 3)) * 1000) (-1347))
    by lra.
  rewrite (rint_near ((0 + 165 / 100 * sqrt (2 / 3)) * 1000) 1347) by lra.
  rewrite (rint_near (7 / 10 * 1000) 700) by lra.
  replace (700 / 1000) with (7 / 10) by lra. reflexivity.
Qed.

End Rounding.

(** * Further properties of the code *)

(** ** The bins of [resample] *)

Lemma bins_multiple (freq : Z) (index : list Z) (b : Z) :
  In b (bins freq index) -> exists k, b = freq * k.
Proof.
  unfold bins, floor_to. destruct index as [|t ts]; simpl; [tauto|].
  intros [<-|H].
  - exists (fold_right Z.min t ts / freq). lia.
  - apply in_map_iff in H. destruct H as (i & <- & _).
    exists (fold_right Z.min t ts / freq + Z.of_nat i). lia.
Qed.

Lemma steps_increasing (lo freq : Z) (n s : nat) :
  0 < freq ->
  StronglySorted Z.lt (map (fun i => lo + freq * Z.of_nat i) (seq s n)).
Proof.
  intros Hf. revert s. induction n as [|n IH]; intros s; simpl.
  - constructor.
  - constructor; [apply IH|].
    apply Forall_forall. intros b Hb. apply in_map_iff in Hb.
    destruct Hb as (i & <- & Hi). apply in_seq in Hi. nia.
Qed.

Lemma bins_increasing (freq : Z) (index : list Z) :
  0 < freq -> StronglySorted Z.lt (bins freq index).
Proof.
  intros Hf. unfold bins. destruct index as [|t ts]; [constructor|].
  now apply steps_increasing.
Qed.

Lemma resample_labels (A : Type) (freq : Z) (index : A -> Z) (df : list A) :
  map fst (resample freq index df) = bins freq (map index df).
Proof.
  unfold resample. rewrite map_map. simpl. apply map_id.
Qed.

Lemma sorted_filter (A : Type) (f : A -> Z) (p : A -> bool) (l : list A) :
  StronglySorted Z.lt (map f l) -> StronglySorted Z.lt (map f (filter p l)).
Proof.
  induction l as [|x l IH]; simpl; intros H; [constructor|].
  inversion H as [|? ? Hs Hall]; subst.
  destruct (p x); simpl; [|now apply IH].
  constructor; [now apply IH|].
  apply Forall_forall. intros y Hy. apply in_map_iff in Hy.
  destruct Hy as (z & <- & Hz). apply filter_In in Hz.
  rewrite Forall_forall in Hall. apply Hall. apply in_map. tauto.
Qed.

Lemma time_of_day_multiple (k : Z) : time_of_day (SECONDS_PER_DAY * k) = 0.
Proof.
  unfold time_of_day, SECONDS_PER_DAY.
  rewrite Z.mul_comm. apply Z_mod_mult.
Qed.

(** ** The daily frame of [get_24h_count_df] *)

Lemma daily_adjusted_dates (src : list flagged) :
  map D24.date (daily_adjusted src)
  = bins SECONDS_PER_DAY (map (fun r => Raw.date (rec r)) src).
Proof.
  unfold daily_adjusted. rewrite <- resample_labels, map_map.
  apply map_ext. now intros [d g].
Qed.

(** X1. The days returned by [get_24h_count_df] are midnights in
    strictly increasing order: the index is sorted and has no duplicate. *)
Theorem get_24h_count_df_index_increasing (data : list Raw.row)
    (intersection_name : string) (H15 H24 T24 : Z) :
  StronglySorted Z.lt
    (map D24.date (get_24h_count_df data intersection_name H15 H24 T24))
  /\ Forall (fun r => time_of_day (D24.date r) = 0)
            (get_24h_count_df data intersection_name H15 H24 T24).
Proof.
  unfold get_24h_count_df, valid_days. split.
  - apply sorted_filter. rewrite daily_adjusted_dates.
    apply bins_increasing. reflexivity.
  - apply Forall_forall. intros r Hr. apply filter_In in Hr.
    destruct Hr as [Hr _]. apply (in_map D24.date) in Hr.
    rewrite daily_adjusted_dates in Hr. apply bins_multiple in Hr.
    destruct Hr as (k & ->). apply time_of_day_multiple.
Qed.

Lemma daily_adjusted_row (src : list flagged) (r : D24.row) :
  In r (daily_adjusted src) ->
  let g := filter (fun x => in_bin SECONDS_PER_DAY (D24.date r)
                              (Raw.date (rec x))) src in
  D24.num_valid_counts r = count g
  /\ forall c c', In (c, c') directions24 ->
        c' r = fmul (fdiv (of_int (sum_col (fun x => c (rec x)) g))
                          (of_int (count g)))
                    (of_int 96).
Proof.
  intros Hr. unfold daily_adjusted, resample in Hr.
  rewrite map_map in Hr. apply in_map_iff in Hr.
  destruct Hr as (b & <- & _). simpl. split; [reflexivity|].
  intros c c' [H|[H|[H|[H|[]]]]]; inversion H; subst; reflexivity.
Qed.

Lemma filter_map_comm (A B : Type) (f : A -> B) (p : B -> bool) (l : list A) :
  filter p (map f l) = map f (filter (fun x => p (f x)) l).
Proof.
  induction l as [|x l IH]; simpl; [reflexivity|].
  destruct (p (f x)); simpl; now rewrite IH.
Qed.

Lemma sum_col_map (A B : Type) (f : A -> B) (col : B -> Z) (l : list A) :
  sum_col col (map f l) = sum_col (fun x => col (f x)) l.
Proof. unfold sum_col. now rewrite map_map. Qed.

(** The rows of the daily frame in terms of the records of the raw table. *)
Lemma get_24h_count_df_row (data : list Raw.row) (intersection_name : string)
    (H15 H24 T24 : Z) (r : D24.row) :
  In r (get_24h_count_df data intersection_name H15 H24 T24) ->
  let g := records_of_day data intersection_name (D24.date r) in
  D24.num_valid_counts r = count g
  /\ (forall c c', In (c, c') directions24 ->
        c' r = fmul (fdiv (of_int (sum_col c g)) (of_int (count g)))
                    (of_int 96))
  /\ flag_F3 T24 r = false /\ flag_F4 H24 r = false.
Proof.
  intros Hr g. unfold get_24h_count_df, valid_days in Hr.
  apply filter_In in Hr. destruct Hr as [Hr Hflags].
  apply andb_true_iff in Hflags. destruct Hflags as [H3 H4].
  apply negb_true_iff in H3. apply negb_true_iff in H4.
  apply daily_adjusted_row in Hr. cbv zeta in Hr.
  unfold flag_rows in Hr. rewrite filter_map_comm in Hr. cbn [rec] in Hr.
  fold (records_of_day data intersection_name (D24.date r)) in Hr.
  fold g in Hr. rewrite count_map in Hr.
  destruct Hr as [Hcount Hcols]. repeat split; try assumption.
  intros c c' Hc. rewrite (Hcols c c' Hc), sum_col_map. reflexivity.
Qed.

(** X2. With a minimum of at least one record per day ([T24 >= 1]), every
    day returned by [get_24h_count_df] has at least [T24] records and four
    adjusted volumes that are numbers (not NaN) not above [H24]. *)
Theorem get_24h_count_df_days_within_limits (data : list Raw.row)
    (intersection_name : string) (H15 H24 T24 : Z) :
  1 <= T24 ->
  Forall (fun r =>
            T24 <= D24.num_valid_counts r
            /\ forall c c', In (c, c') directions24 ->
                 exists q, c' r = Some q /\ (q <= inject_Z H24)%Q)
         (get_24h_count_df data intersection_name H15 H24 T24).
Proof.
  intros HT. apply Forall_forall. intros r Hr.
  destruct (get_24h_count_df_row _ _ _ _ _ _ Hr) as (Hn & Hcols & H3 & H4).
  unfold flag_F3 in H3. apply Z.ltb_ge in H3. split; [exact H3|].
  intros c c' Hc. pose proof (Hcols c c' Hc) as E.
  unfold fdiv, fmul, lift2, of_int in E.
  rewrite inject_Z_nonzero in E by lia.
  eexists. split; [exact E|].
  unfold flag_F4 in H4.
  assert (Hgt : fgt (c' r) H24 = false).
  { destruct (fgt (c' r) H24) eqn:Eg; [|reflexivity].
    assert (Hex : existsb (fun c0 => fgt (c0 r) H24)
                    [D24.ped_N; D24.ped_S; D24.ped_W; D24.ped_E] = true).
    { apply existsb_exists. exists c'. split; [|exact Eg].
      simpl in Hc. destruct Hc as [H|[H|[H|[H|[]]]]]; inversion H;
        simpl; tauto. }
    rewrite Hex in H4. discriminate H4. }
  rewrite E in Hgt. simpl in Hgt. apply negb_false_iff in Hgt.
  now apply Qle_bool_iff in Hgt.
Qed.

Lemma get_24h_count_df_days_within_limits_witness :
  Forall (fun r =>
            72 <= D24.num_valid_counts r
            /\ forall c c', In (c, c') directions24 ->
                 exists q, c' r = Some q /\ (q <= inject_Z 500)%Q)
         (get_24h_count_df capped_day "A" 100 500 72).
Proof.
  apply (get_24h_count_df_days_within_limits capped_day "A" 100 500 72).
  lia.
Defined.



Lemma sum_col_constant (A : Type) (col : A -> Z) (k : Z) (g : list A) :
  (forall x, In x g -> col x = k) -> sum_col col g = k * count g.
Proof.
  unfold sum_col, count. induction g as [|x g IH]; intros H.
  - simpl. lia.
  - cbn [map fold_right List.length]. rewrite IH, (H x).
    + lia.
    + now left.
    + intros y Hy. apply H. now right.
Qed.

(** X4. Partial days are scaled to a full day of 96 intervals: on a raw
    table whose counts stay exact ([counts_fit]), when every record of a
    returned day has the same count [k] on a crossing, the adjusted volume
    of that crossing is [96 k], however many records the day has. *)
Theorem get_24h_count_df_uniform_day (data : list Raw.row)
    (intersection_name : string) (H15 H24 T24 : Z) (r : D24.row)
    (c : Raw.row -> Z) (c' : D24.row -> float) (k : Z) :
  counts_fit data -> 1 <= T24 ->
  In r (get_24h_count_df data intersection_name H15 H24 T24) ->
  In (c, c') directions24 ->
  (forall x, In x (records_of_day data intersection_name (D24.date r)) ->
             c x = k) ->
  exists q, c' r = Some q /\ (q == inject_Z (96 * k))%Q.
Proof.
  intros _ HT Hr Hc Hk.
  destruct (get_24h_count_df_row _ _ _ _ _ _ Hr) as (Hn & Hcols & H3 & _).
  unfold flag_F3 in H3. apply Z.ltb_ge in H3.
  pose proof (Hcols c c' Hc) as E.
  rewrite (sum_col_constant _ c k _ Hk) in E.
  unfold fdiv, fmul, lift2, of_int in E.
  rewrite inject_Z_nonzero in E by lia.
  eexists. split; [exact E|].
  rewrite !inject_Z_mult. change (inject_Z 96) with 96%Q. field.
  unfold Qeq. simpl. lia.
Qed.

Lemma get_24h_count_df_uniform_day_witness :
  exists q,
    D24.ped_N (D24.mk tue_2022_05_03 (Some (6 / 2 * 96)%Q) (Some (0 / 2 * 96)%Q)
                 (Some (0 / 2 * 96)%Q) (Some (0 / 2 * 96)%Q) 3 0 0 2)
    = Some q
    /\ (q == inject_Z (96 * 3))%Q.
Proof.
  apply (get_24h_count_df_uniform_day half_hour "A" 100 500 1
           (D24.mk tue_2022_05_03 (Some (6 / 2 * 96)%Q) (Some (0 / 2 * 96)%Q)
              (Some (0 / 2 * 96)%Q) (Some (0 / 2 * 96)%Q) 3 0 0 2)
           Raw.ped_N D24.ped_N 3).
  - unfold counts_fit. vm_compute. discriminate.
  - lia.
  - vm_compute. left. reflexivity.
  - simpl. left. reflexivity.
  - intros x Hx. vm_compute in Hx.
    destruct Hx as [<-|[<-|[]]]; reflexivity.
Defined.

(** The adjusted volumes of non-negative counts are non-negative
    numbers. *)
Lemma get_24h_count_df_volumes (data : list Raw.row)
    (intersection_name : string) (H15 H24 T24 : Z) :
  nonneg_counts data -> 1 <= T24 ->
  valid_volumes (get_24h_count_df data intersection_name H15 H24 T24).
Proof.
  intros Hdata HT r Hr c' Hc'.
  destruct (get_24h_count_df_row _ _ _ _ _ _ Hr) as (Hn & Hcols & H3 & _).
  unfold flag_F3 in H3. apply Z.ltb_ge in H3.
  assert (Hex : exists c, In (c, c') directions24
                          /\ forall x, In x data -> 0 <= c x).
  { simpl in Hc'. destruct Hc' as [<-|[<-|[<-|[<-|[]]]]].
    - exists Raw.ped_N. split; [simpl; tauto|]. intros x Hx.
      now destruct (Hdata x Hx) as (? & ? & ? & ?).
    - exists Raw.ped_S. split; [simpl; tauto|]. intros x Hx.
      now destruct (Hdata x Hx) as (? & ? & ? & ?).
    - exists Raw.ped_W. split; [simpl; tauto|]. intros x Hx.
      now destruct (Hdata x Hx) as (? & ? & ? & ?).
    - exists Raw.ped_E. split; [simpl; tauto|]. intros x Hx.
      now destruct (Hdata x Hx) as (? & ? & ? & ?). }
  destruct Hex as (c & Hc & Hpos).
  pose proof (Hcols c c' Hc) as E.
  unfold fdiv, fmul, lift2, of_int in E.
  rewrite inject_Z_nonzero in E by lia.
  eexists. split; [exact E|].
  assert (Hsum : 0 <= sum_col c
                        (records_of_day data intersection_name (D24.date r))).
  { apply sum_col_nonneg. intros x Hx. apply Hpos.
    unfold records_of_day in Hx. apply filter_In in Hx.
    destruct Hx as [Hx _]. now apply filter_In in Hx. }
  apply Qmult_le_0_compat; [|discriminate].
  unfold Qdiv. apply Qmult_le_0_compat.
  - unfold Qle. simpl. lia.
  - apply Qinv_le_0_compat. unfold Qle. simpl. lia.
Qed.

(** X5. On a raw table of non-negative counts that stay exact
    ([counts_fit]) and with [T24 >= 1], the frame returned by
    [get_24h_count_df] is a table of valid volumes: each directional volume
    of each day is a non-negative number, which is what [get_AADPT] and
    [get_true_ratio] need for their results to be numbers. *)
Theorem get_24h_count_df_valid_volumes (data : list Raw.row)
    (intersection_name : string) (H15 H24 T24 : Z) :
  nonneg_counts data -> counts_fit data -> 1 <= T24 ->
  valid_volumes (get_24h_count_df data intersection_name H15 H24 T24).
Proof.
  intros Hdata _ HT. now apply get_24h_count_df_volumes.
Qed.

Lemma get_24h_count_df_valid_volumes_witness :
  valid_volumes (get_24h_count_df half_hour "A" 100 500 1).
Proof.
  apply (get_24h_count_df_valid_volumes half_hour "A" 100 500 1).
  - intros x Hx. simpl in Hx. destruct Hx as [<-|[<-|[]]]; simpl; lia.
  - unfold counts_fit. vm_compute. discriminate.
  - lia.
Defined.

(** ** Bounds of the stratified average *)

Lemma count_cons (A : Type) (x : A) (l : list A) : count (x :: l) = count l + 1.
Proof. unfold count. cbn [List.length]. lia. Qed.

Lemma count_nonneg (A : Type) (l : list A) : 0 <= count l.
Proof. unfold count. lia. Qed.

Lemma Qsum_le_count (A : Type) (f : A -> Q) (M : Q) (l : list A) :
  (forall x, In x l -> (f x <= M)%Q) ->
  (Qsum (map f l) <= inject_Z (count l) * M)%Q.
Proof.
  induction l as [|x l IH]; intros H.
  - change (0 <= 0 * M)%Q. rewrite Qmult_0_l. apply Qle_refl.
  - cbn [map Qsum fold_right]. rewrite count_cons, inject_Z_plus.
    assert (f x <= M)%Q by (apply H; now left).
    assert (Qsum (map f l) <= inject_Z (count l) * M)%Q
      by (apply IH; intros y Hy; apply H; now right).
    change (inject_Z 1) with 1%Q. unfold Qsum in *. Lqa.nra.
Qed.

(** A mean of values up to [M] is up to [M]. *)
Lemma mean_le (A : Type) (f : A -> Q) (M : Q) (l : list A) :
  0 < count l ->
  (forall x, In x l -> (f x <= M)%Q) ->
  (1 / inject_Z (count l) * Qsum (map f l) <= M)%Q.
Proof.
  intros Hpos H. pose proof (Qsum_le_count A f M l H) as Hs.
  assert (Hc : (0 < inject_Z (count l))%Q) by (unfold Qlt; simpl; lia).
  setoid_replace (1 / inject_Z (count l) * Qsum (map f l))%Q
    with (Qsum (map f l) / inject_Z (count l))%Q
    by (field; Lqa.lra).
  apply Qle_shift_div_r; [exact Hc|]. Lqa.lra.
Qed.

Lemma AADPT_stratified_le (df : list D24.row) (vol : D24.row -> Q) (M : Q) :
  (forall r, In r df -> (0 <= vol r <= M)%Q) ->
  (AADPT_stratified df vol <= M)%Q \/ df = [].
Proof.
  intros H. destruct df as [|r0 df0] eqn:Edf; [now right|]. left.
  rewrite <- Edf in *. unfold AADPT_stratified. rewrite Edf at 1.
  assert (HM : (0 <= M)%Q).
  { destruct (H r0) as [H0 H1]; [rewrite Edf; now left|]. Lqa.lra. }
  apply mean_le.
  { rewrite Edf. unfold count. simpl. lia. }
  intros m _.
  rewrite <- (Qsum_filter Z (fun d => negb (count (stratum df m d) =? 0))
                (fun d => stratum_mean vol (stratum df m d))).
  apply mean_le.
  { rewrite Edf. unfold count. simpl. lia. }
  intros d _. destruct (count (stratum df m d) =? 0) eqn:E; simpl.
  - exact HM.
  - apply Z.eqb_neq in E. unfold stratum_mean.
    assert (Hc : (0 < inject_Z (count (stratum df m d)))%Q).
    { pose proof (count_nonneg _ (stratum df m d)).
      unfold Qlt; simpl; lia. }
    apply Qle_shift_div_r; [exact Hc|].
    rewrite Qmult_comm. apply Qsum_le_count.
    intros r Hr. unfold stratum in Hr. apply filter_In in Hr.
    now apply H.
Qed.


Lemma Qsum_zero (l : list Q) :
  (forall x, In x l -> (0 <= x)%Q) -> (Qsum l == 0)%Q ->
  forall x, In x l -> (x == 0)%Q.
Proof.
  induction l as [|y l IH]; simpl; intros Hpos Hsum x Hx; [contradiction|].
  assert (Hy : (0 <= y)%Q) by (apply Hpos; now left).
  assert (Hl : (0 <= Qsum l)%Q)
    by (apply Qsum_nonneg; intros z Hz; apply Hpos; now right).
  unfold Qsum in *. destruct Hx as [<-|Hx].
  - Lqa.lra.
  - apply IH; [intros z Hz; apply Hpos; now right | Lqa.lra | exact Hx].
Qed.

Lemma Qmult_pos_zero (a b : Q) : (0 < a -> a * b == 0 -> b == 0)%Q.
Proof.
  intros Ha H. apply Qmult_integral in H. destruct H as [H|H]; [|exact H].
  rewrite H in Ha. now apply Qlt_irrefl in Ha.
Qed.

Lemma inv_count_pos (A : Type) (l : list A) :
  0 < count l -> (0 < 1 / inject_Z (count l))%Q.
Proof.
  intros H. unfold Qdiv. rewrite Qmult_1_l. apply Qinv_lt_0_compat.
  unfold Qlt. simpl. lia.
Qed.

Lemma count_pos_of_In (A : Type) (x : A) (l : list A) :
  In x l -> 0 < count l.
Proof.
  unfold count. destruct l; simpl; [contradiction | lia].
Qed.

Lemma AADPT_stratified_zero (df : list D24.row) (vol : D24.row -> Q) :
  (forall r, In r df -> (0 <= vol r)%Q) ->
  (AADPT_stratified df vol == 0)%Q ->
  forall r, In r df -> (vol r == 0)%Q.
Proof.
  intros Hpos H0 r Hr. unfold AADPT_stratified in H0.
  destruct df as [|r0 df0] eqn:Edf; [contradiction|]. rewrite <- Edf in *.
  set (months := unique (map (fun r => month (D24.date r)) df)) in *.
  set (weekdays := unique (map (fun r => dayofweek (D24.date r)) df)) in *.
  assert (Hm : In (month (D24.date r)) months).
  { apply unique_In, in_map_iff. now exists r. }
  assert (Hd : In (dayofweek (D24.date r)) weekdays).
  { apply unique_In, in_map_iff. now exists r. }
  assert (Hs : In r (stratum df (month (D24.date r)) (dayofweek (D24.date r)))).
  { unfold stratum. apply filter_In. split; [exact Hr|].
    now rewrite !Z.eqb_refl. }
  apply Qmult_pos_zero in H0;
    [|apply inv_count_pos; now apply (count_pos_of_In _ _ _ Hm)].
  apply Qsum_zero with (x := (1 / inject_Z (count weekdays)
      * Qsum (map (fun d => stratum_mean vol
                              (stratum df (month (D24.date r)) d))
                  (filter (fun d => negb (count (stratum df
                                      (month (D24.date r)) d) =? 0))
                          weekdays)))%Q) in H0.
  - apply Qmult_pos_zero in H0;
      [|apply inv_count_pos; now apply (count_pos_of_In _ _ _ Hd)].
    apply Qsum_zero with (x := stratum_mean vol
        (stratum df (month (D24.date r)) (dayofweek (D24.date r)))) in H0.
    + unfold stratum_mean, Qdiv in H0. rewrite Qmult_comm in H0.
      apply Qmult_pos_zero in H0.
      * apply (Qsum_zero _) with (x := vol r) in H0; [exact H0| |].
        -- intros x Hx. apply in_map_iff in Hx. destruct Hx as (z & <- & Hz).
           apply Hpos. unfold stratum in Hz. now apply filter_In in Hz.
        -- now apply in_map.
      * apply Qinv_lt_0_compat. unfold Qlt. simpl.
        pose proof (count_pos_of_In _ _ _ Hs). lia.
    + intros x Hx. apply in_map_iff in Hx. destruct Hx as (d & <- & _).
      apply stratum_mean_nonneg. intros z Hz. apply Hpos.
      unfold stratum in Hz. now apply filter_In in Hz.
    + apply in_map_iff. exists (dayofweek (D24.date r)). split; [reflexivity|].
      apply filter_In. split; [exact Hd|].
      apply negb_true_iff, Z.eqb_neq.
      pose proof (count_pos_of_In _ _ _ Hs). lia.
  - intros x Hx. apply in_map_iff in Hx. destruct Hx as (m & <- & _).
    apply Qmult_le_0_compat; [apply inv_count_nonneg|].
    apply Qsum_nonneg. intros y Hy. apply in_map_iff in Hy.
    destruct Hy as (d & <- & _). apply stratum_mean_nonneg.
    intros z Hz. apply Hpos. unfold stratum in Hz. now apply filter_In in Hz.
  - apply in_map_iff. now exists (month (D24.date r)).
Qed.

(** X7. On a table of non-negative daily volumes, the AADPT of a
    crossing is 0 exactly when every daily volume of that crossing is 0 (in
    particular on the empty table). *)
Theorem get_AADPT_zero_iff (df : list D24.row) (count_col : D24.row -> float)
    (vol : D24.row -> Q) :
  (forall r, In r df -> count_col r = Some (vol r) /\ (0 <= vol r)%Q) ->
  exists q, get_AADPT df count_col = Some q
            /\ ((q == 0)%Q <-> forall r, In r df -> (vol r == 0)%Q).
Proof.
  intros H.
  destruct (get_AADPT_finite df count_col vol) as (q & Hq & Eq).
  { intros r Hr. now destruct (H r Hr). }
  exists q. split; [exact Hq|]. rewrite Eq. split.
  - apply AADPT_stratified_zero. intros r Hr. now destruct (H r Hr).
  - intros Hz. apply Qle_antisym.
    + destruct (AADPT_stratified_le df vol 0) as [Hle | ->].
      * intros r Hr. destruct (H r Hr) as [_ Hp]. rewrite (Hz r Hr).
        split; apply Qle_refl.
      * exact Hle.
      * apply Qle_refl.
    + apply AADPT_stratified_nonneg. intros r Hr. now destruct (H r Hr).
Qed.

Lemma get_AADPT_zero_iff_witness :
  exists q, get_AADPT ten_days_north D24.ped_S = Some q
            /\ ((q == 0)%Q
                <-> forall r, In r ten_days_north ->
                      (vol_of D24.ped_S r == 0)%Q).
Proof.
  apply (get_AADPT_zero_iff ten_days_north D24.ped_S (vol_of D24.ped_S)).
  intros r Hr. unfold ten_days_north in Hr. apply in_map_iff in Hr.
  destruct Hr as (i & <- & _). split; [reflexivity | discriminate].
Defined.

(** ** Missing values *)

Lemma fold_left_None (A : Type) (f : float -> A -> float) (l : list A) :
  (forall x, f None x = None) -> fold_left f l None = None.
Proof.
  intros Hnone. induction l as [|y l IH]; simpl; [reflexivity|].
  now rewrite Hnone.
Qed.

Lemma fold_left_absorbs (A : Type) (f : float -> A -> float) (l : list A)
    (x0 : A) (a : float) :
  (forall x, f None x = None) ->
  (forall b, f b x0 = None) ->
  In x0 l -> fold_left f l a = None.
Proof.
  intros Hnone Hx0. revert a.
  induction l as [|y l IH]; intros a Hin; simpl; [contradiction|].
  destruct Hin as [->|Hin].
  - rewrite Hx0. now apply fold_left_None.
  - now apply IH.
Qed.

Lemma fadd_None_r (a : float) : fadd a None = None.
Proof. now destruct a. Qed.

Lemma fmul_None_r (a : float) : fmul a None = None.
Proof. now destruct a. Qed.

Lemma fsum_None (volumes : list float) : In None volumes -> fsum volumes = None.
Proof.
  intros H. unfold fsum.
  apply (fold_left_absorbs float fadd volumes None); try assumption.
  - reflexivity.
  - apply fadd_None_r.
Qed.

(** A NaN in the column makes the AADPT NaN. *)
Lemma get_AADPT_None (df : list D24.row) (count_col : D24.row -> float)
    (r : D24.row) :
  In r df -> count_col r = None -> get_AADPT df count_col = None.
Proof.
  intros Hr Hnan. unfold get_AADPT.
  set (months := unique (map (fun r => month (D24.date r)) df)).
  set (dayofweeks := unique (map (fun r => dayofweek (D24.date r)) df)).
  cbv zeta.
  apply (fold_left_absorbs Z _ months (month (D24.date r))).
  - intros m. apply fold_left_None. intros d. now destruct (negb _).
  - intros b.
    apply (fold_left_absorbs Z _ dayofweeks (dayofweek (D24.date r))).
    + intros d. now destruct (negb _).
    + intros c.
      assert (Hs : In r (stratum df (month (D24.date r))
                           (dayofweek (D24.date r)))).
      { unfold stratum. apply filter_In. split; [exact Hr|].
        now rewrite !Z.eqb_refl. }
      assert (Hc : negb (count (map count_col
                     (stratum df (month (D24.date r))
                        (dayofweek (D24.date r)))) =? 0) = true).
      { apply negb_true_iff, Z.eqb_neq. rewrite count_map.
        pose proof (count_pos_of_In _ _ _ Hs). lia. }
      rewrite Hc, fsum_None.
      * now rewrite fmul_None_r, fadd_None_r.
      * apply in_map_iff. now exists r.
    + apply unique_In, in_map_iff. now exists r.
  - apply unique_In, in_map_iff. now exists r.
Qed.

(** X8. The guard of [get_true_ratio] covers a total of 0 only: one day
    with a NaN volume on any crossing makes the total AADPT and the four
    ratios NaN. *)
Theorem get_true_ratio_nan (df : list D24.row) (r : D24.row)
    (c : D24.row -> float) :
  In r df -> In c [D24.ped_N; D24.ped_S; D24.ped_W; D24.ped_E] ->
  c r = None ->
  get_true_ratio df = mk_true_ratio None None None None None.
Proof.
  intros Hr Hc Hnan. pose proof (get_AADPT_None df c r Hr Hnan) as E.
  unfold get_true_ratio. simpl in Hc.
  destruct Hc as [<-|[<-|[<-|[<-|[]]]]]; rewrite E;
    repeat rewrite fadd_None_r;
    destruct (get_AADPT df D24.ped_N), (get_AADPT df D24.ped_S),
             (get_AADPT df D24.ped_W), (get_AADPT df D24.ped_E);
    reflexivity || discriminate.
Qed.

(** With [T24 = 0] the Wednesday without a record stays in the daily frame
    of [gap_days], its volumes NaN. *)
Example get_24h_count_df_gap_days :
  map (fun r => (D24.date r, D24.ped_N r, D24.num_valid_counts r))
      (get_24h_count_df gap_days "A" 100 500 0)
  = [(tue_2022_05_03, Some (3 / 1 * 96)%Q, 1);
     (tue_2022_05_03 + SECONDS_PER_DAY, None, 0);
     (tue_2022_05_03 + 2 * SECONDS_PER_DAY, Some (2 / 1 * 96)%Q, 1)].
Proof. vm_compute. reflexivity. Qed.

Lemma get_true_ratio_nan_witness :
  get_true_ratio (get_24h_count_df gap_days "A" 100 500 0)
  = mk_true_ratio None None None None None.
Proof.
  apply (get_true_ratio_nan (get_24h_count_df gap_days "A" 100 500 0)
           (D24.mk (tue_2022_05_03 + SECONDS_PER_DAY) None None None None
              0 0 0 0)
           D24.ped_N).
  - vm_compute. right. left. reflexivity.
  - simpl. left. reflexivity.
  - reflexivity.
Defined.

(** ** Sums over bins *)

Lemma fold_min_le (t : Z) (ts : list Z) (x : Z) :
  In x (t :: ts) -> fold_right Z.min t ts <= x.
Proof.
  induction ts as [|y ts IH]; simpl.
  - intros [->|[]]. lia.
  - intros [->|[->|H]].
    + assert (fold_right Z.min x ts <= x) by (apply IH; now left). lia.
    + lia.
    + assert (fold_right Z.min t ts <= x) by (apply IH; now right). lia.
Qed.

Lemma fold_max_ge (t : Z) (ts : list Z) (x : Z) :
  In x (t :: ts) -> x <= fold_right Z.max t ts.
Proof.
  induction ts as [|y ts IH]; simpl.
  - intros [->|[]]. lia.
  - intros [->|[->|H]].
    + assert (x <= fold_right Z.max x ts) by (apply IH; now left). lia.
    + lia.
    + assert (x <= fold_right Z.max t ts) by (apply IH; now right). lia.
Qed.

(** Every index value has its bin among the bins. *)
Lemma bins_cover (freq : Z) (index : list Z) (t : Z) :
  0 < freq -> In t index -> In (floor_to freq t) (bins freq index).
Proof.
  intros Hf Ht. unfold bins. destruct index as [|t0 ts]; [contradiction|].
  pose proof (fold_min_le t0 ts t Ht) as Hmin.
  pose proof (fold_max_ge t0 ts t Ht) as Hmax.
  set (lo := fold_right Z.min t0 ts) in *.
  set (hi := fold_right Z.max t0 ts) in *.
  cbv zeta. unfold floor_to.
  assert (Hlo : lo / freq <= t / freq) by (apply Z.div_le_mono; lia).
  assert (Hhi : t / freq <= hi / freq) by (apply Z.div_le_mono; lia).
  assert (Hspan : (freq * (hi / freq) - freq * (lo / freq)) / freq
                  = hi / freq - lo / freq).
  { rewrite <- Z.mul_sub_distr_l, Z.mul_comm. apply Z.div_mul. lia. }
  apply in_map_iff. exists (Z.to_nat (t / freq - lo / freq)). split.
  - rewrite Z2Nat.id by lia. lia.
  - apply in_seq. rewrite Hspan. lia.
Qed.

Lemma in_bin_floor (freq k t : Z) :
  0 < freq ->
  in_bin freq (freq * k) t = (freq * k =? floor_to freq t).
Proof.
  intros Hf. unfold in_bin, floor_to.
  pose proof (Z.mul_div_le t freq Hf) as H1.
  pose proof (Z.mul_succ_div_gt t freq Hf) as H2.
  destruct (freq * k =? freq * (t / freq)) eqn:E.
  - apply Z.eqb_eq in E. apply andb_true_iff.
    split; [apply Z.leb_le | apply Z.ltb_lt]; lia.
  - apply Z.eqb_neq in E. apply andb_false_iff.
    destruct (Z.lt_trichotomy k (t / freq)) as [Hlt|[Heq|Hgt]].
    + right. apply Z.ltb_ge. nia.
    + subst. lia.
    + left. apply Z.leb_gt. nia.
Qed.

Lemma sorted_NoDup (l : list Z) : StronglySorted Z.lt l -> NoDup l.
Proof.
  induction 1 as [|x l Hs IH Hall]; constructor; [|exact IH].
  intros Hin. rewrite Forall_forall in Hall. apply Hall in Hin. lia.
Qed.

Lemma sum_col_app (A : Type) (col : A -> Z) (l1 l2 : list A) :
  sum_col col (l1 ++ l2) = sum_col col l1 + sum_col col l2.
Proof.
  unfold sum_col. induction l1 as [|x l1 IH]; simpl; [reflexivity|].
  rewrite IH. lia.
Qed.

Lemma sum_col_ext (A : Type) (f g : A -> Z) (l : list A) :
  (forall x, In x l -> f x = g x) -> sum_col f l = sum_col g l.
Proof.
  unfold sum_col. induction l as [|x l IH]; simpl; intros H; [reflexivity|].
  rewrite (H x (or_introl eq_refl)), IH; [reflexivity|].
  intros y Hy. apply H. now right.
Qed.

Lemma sum_col_plus (A : Type) (f g : A -> Z) (l : list A) :
  sum_col (fun x => f x + g x) l = sum_col f l + sum_col g l.
Proof.
  unfold sum_col. induction l as [|x l IH]; simpl; [reflexivity|].
  rewrite IH. lia.
Qed.

Lemma sum_col_filter (A : Type) (p : A -> bool) (f : A -> Z) (l : list A) :
  sum_col f (filter p l) = sum_col (fun x => if p x then f x else 0) l.
Proof.
  unfold sum_col. induction l as [|x l IH]; simpl; [reflexivity|].
  destruct (p x); simpl; rewrite IH; reflexivity.
Qed.

Lemma sum_col_indicator (q : Z -> bool) (y v : Z) (B : list Z) :
  NoDup B -> In y B ->
  sum_col (fun b => if q b && (b =? y) then v else 0) B
  = if q y then v else 0.
Proof.
  unfold sum_col. induction B as [|b B IH]; intros Hnd Hin; [contradiction|].
  inversion Hnd as [|? ? Hnotin Hnd']; subst. simpl.
  destruct Hin as [->|Hin].
  - rewrite Z.eqb_refl, andb_true_r.
    assert (E : fold_right Z.add 0
                  (map (fun b => if q b && (b =? y) then v else 0) B) = 0).
    { clear IH Hnd Hnd'. induction B as [|b B IHB]; simpl; [reflexivity|].
      assert (b <> y) by (intros ->; apply Hnotin; now left).
      assert (Eb : (b =? y) = false) by now apply Z.eqb_neq.
      rewrite Eb, andb_false_r, IHB; [reflexivity|].
      intros H'. apply Hnotin. now right. }
    rewrite E. lia.
  - assert (b <> y) by (intros ->; contradiction).
    assert (Eb : (b =? y) = false) by now apply Z.eqb_neq.
    rewrite Eb, andb_false_r, IH by assumption. reflexivity.
Qed.

(** Summing the sums of the selected bins is summing over the rows whose
    bin is selected. *)
Lemma sum_over_bins (A : Type) (freq : Z) (index : A -> Z) (col : A -> Z)
    (q : Z -> bool) (B : list Z) (l : list A) :
  0 < freq -> NoDup B ->
  (forall b, In b B -> exists k, b = freq * k) ->
  (forall x, In x l -> In (floor_to freq (index x)) B) ->
  sum_col (fun b =>
             if q b
             then sum_col col (filter (fun x => in_bin freq b (index x)) l)
             else 0) B
  = sum_col col (filter (fun x => q (floor_to freq (index x))) l).
Proof.
  intros Hf Hnd Hmult. induction l as [|a l IH]; intros Hcover.
  - rewrite (sum_col_ext _ _ (fun _ => 0)).
    + simpl. unfold sum_col. clear.
      induction B as [|b B IHB]; simpl; [reflexivity | exact IHB].
    + intros b _. now destruct (q b).
  - rewrite (sum_col_ext _ _
      (fun b => (if q b && (b =? floor_to freq (index a)) then col a else 0)
                + (if q b
                   then sum_col col (filter (fun x => in_bin freq b (index x)) l)
                   else 0))).
    + rewrite sum_col_plus, sum_col_indicator, IH.
      * cbn [filter]. destruct (q (floor_to freq (index a))).
        -- unfold sum_col. simpl. reflexivity.
        -- lia.
      * intros x Hx. apply Hcover. now right.
      * exact Hnd.
      * apply Hcover. now left.
    + intros b Hb. destruct (Hmult b Hb) as (k & ->).
      cbn [filter]. rewrite in_bin_floor by exact Hf.
      destruct (q (freq * k)); simpl; [|reflexivity].
      destruct (freq * k =? floor_to freq (index a)).
      * unfold sum_col. simpl. reflexivity.
      * lia.
Qed.

(** ** The windows of [get_8h_count_df] *)

Lemma get_8h_count_df_stages (data : list Raw.row) (intersection_name : string)
    (holidays : list Z) :
  get_8h_count_df data intersection_name holidays
  = filter (fun r => negb (D8.total r =? 0))
      (map add_total
         (filter (fun r => negb (isin (Sums.date r) holidays))
            (filter (fun r => isin (dayofweek (Sums.date r)) [1; 2; 3]
                              && isin (month (Sums.date r))
                                   [4; 5; 6; 9; 10; 11])
               (daily_sums
                  (stc_windows
                     (hourly_sums
                        (filter (fun r => String.eqb (Raw.name r)
                                            intersection_name) data))))))).
Proof. reflexivity. Qed.

Lemma filter_filter_and (A : Type) (p q : A -> bool) (l : list A) :
  filter p (filter q l) = filter (fun x => q x && p x) l.
Proof.
  induction l as [|x l IH]; simpl; [reflexivity|].
  destruct (q x); simpl; [destruct (p x)|]; now rewrite IH.
Qed.

Lemma time_of_day_floor (t : Z) :
  time_of_day (floor_to SECONDS_PER_HOUR t)
  = SECONDS_PER_HOUR * (time_of_day t / SECONDS_PER_HOUR).
Proof.
  unfold time_of_day, floor_to, SECONDS_PER_HOUR, SECONDS_PER_DAY.
  Z.to_euclidean_division_equations. lia.
Qed.

Lemma in_day_floor (k t : Z) :
  in_bin SECONDS_PER_DAY (SECONDS_PER_DAY * k) (floor_to SECONDS_PER_HOUR t)
  = in_bin SECONDS_PER_DAY (SECONDS_PER_DAY * k) t.
Proof.
  rewrite !in_bin_floor by reflexivity. f_equal.
  unfold floor_to, SECONDS_PER_HOUR, SECONDS_PER_DAY.
  Z.to_euclidean_division_equations. lia.
Qed.

(** The part of a day's sum that one window contributes. *)
Lemma window_sum (df_int : list Raw.row) (k start_time end_time : Z)
    (c : Raw.row -> Z) (c' : Sums.row -> Z) :
  In (c, c') count_columns ->
  sum_col c'
    (filter (fun h => in_bin SECONDS_PER_DAY (SECONDS_PER_DAY * k)
                        (Sums.date h))
            (between_time start_time end_time (hourly_sums df_int)))
  = sum_col c
      (filter (fun x =>
                 let b := floor_to SECONDS_PER_HOUR (Raw.date x) in
                 ((start_time <=? time_of_day b)
                  && (time_of_day b <=? end_time))
                 && in_bin SECONDS_PER_DAY (SECONDS_PER_DAY * k) b)
              df_int).
Proof.
  intros Hc. unfold between_time, hourly_sums, resample.
  rewrite map_map, filter_filter_and, filter_map_comm, sum_col_map.
  cbn [Sums.date]. rewrite sum_col_filter.
  rewrite <- (sum_over_bins Raw.row SECONDS_PER_HOUR Raw.date c
                (fun b => ((start_time <=? time_of_day b)
                           && (time_of_day b <=? end_time))
                          && in_bin SECONDS_PER_DAY (SECONDS_PER_DAY * k) b)
                (bins SECONDS_PER_HOUR (map Raw.date df_int)) df_int).
  - apply sum_col_ext. intros b _.
    destruct (((start_time <=? time_of_day b) && (time_of_day b <=? end_time))
              && in_bin SECONDS_PER_DAY (SECONDS_PER_DAY * k) b);
      [|reflexivity].
    simpl in Hc.
    destruct Hc as [H|[H|[H|[H|[H|[]]]]]]; inversion H; reflexivity.
  - reflexivity.
  - apply sorted_NoDup, bins_increasing. reflexivity.
  - apply bins_multiple.
  - intros x Hx. apply bins_cover; [reflexivity|]. now apply in_map.
Qed.

Ltac decide_leb :=
  repeat match goal with
         | |- context [?a <=? ?b] =>
             first [ replace (a <=? b) with true
                       by (symmetry; apply Z.leb_le; lia)
                   | replace (a <=? b) with false
                       by (symmetry; apply Z.leb_gt; lia) ]
         end.

(** The three windows select the hours 7-9, 11-14 and 15-18, each once. *)
Lemma windows_hours (h v : Z) (D : bool) :
  (if ((clock 7 0 <=? SECONDS_PER_HOUR * h)
       && (SECONDS_PER_HOUR * h <=? clock 9 0)) && D then v else 0)
  + ((if ((clock 11 0 <=? SECONDS_PER_HOUR * h)
          && (SECONDS_PER_HOUR * h <=? clock 14 0)) && D then v else 0)
     + (if ((clock 15 0 <=? SECONDS_PER_HOUR * h)
            && (SECONDS_PER_HOUR * h <=? clock 18 0)) && D then v else 0))
  = if D && (((7 <=? h) && (h <=? 9)) || ((11 <=? h) && (h <=? 14))
             || ((15 <=? h) && (h <=? 18)))
    then v else 0.
Proof.
  unfold clock, SECONDS_PER_HOUR.
  destruct (Z.le_gt_cases 7 h), (Z.le_gt_cases h 9), (Z.le_gt_cases 11 h),
    (Z.le_gt_cases h 14), (Z.le_gt_cases 15 h), (Z.le_gt_cases h 18);
    try (exfalso; lia); decide_leb; destruct D; simpl; lia.
Qed.

(** The sum of a day over the selected hourly sums, in terms of records. *)
Lemma stc_windows_sum (df_int : list Raw.row) (k : Z)
    (c : Raw.row -> Z) (c' : Sums.row -> Z) :
  In (c, c') count_columns ->
  sum_col c'
    (filter (fun h => in_bin SECONDS_PER_DAY (SECONDS_PER_DAY * k)
                        (Sums.date h))
            (stc_windows (hourly_sums df_int)))
  = sum_col c
      (filter (fun x => stc_hour (Raw.date x))
         (filter (fun x => in_bin SECONDS_PER_DAY (SECONDS_PER_DAY * k)
                             (Raw.date x)) df_int)).
Proof.
  intros Hc. unfold stc_windows.
  rewrite !filter_app, !sum_col_app, !(window_sum _ _ _ _ c c' Hc).
  rewrite filter_filter_and, !sum_col_filter, <- !sum_col_plus.
  apply sum_col_ext. intros x _. cbv zeta.
  rewrite time_of_day_floor, in_day_floor. unfold stc_hour. cbv zeta.
  apply windows_hours.
Qed.

Lemma daily_sums_dates (df : list Sums.row) :
  map Sums.date (daily_sums df) = bins SECONDS_PER_DAY (map Sums.date df).
Proof.
  unfold daily_sums. rewrite <- resample_labels, map_map.
  apply map_ext. now intros [d g].
Qed.

Lemma daily_sums_row (df : list Sums.row) (s : Sums.row) :
  In s (daily_sums df) ->
  exists k, Sums.date s = SECONDS_PER_DAY * k
    /\ forall c c', In (c, c') count_columns ->
         c' s = sum_col c' (filter (fun h => in_bin SECONDS_PER_DAY
                                               (Sums.date s) (Sums.date h))
                                   df).
Proof.
  intros Hs.
  assert (Hd : In (Sums.date s) (map Sums.date (daily_sums df)))
    by now apply in_map.
  rewrite daily_sums_dates in Hd. apply bins_multiple in Hd.
  destruct Hd as (k & Hk). exists k. split; [exact Hk|].
  unfold daily_sums, resample in Hs. rewrite map_map in Hs.
  apply in_map_iff in Hs. destruct Hs as (b & <- & _).
  intros c c' [H|[H|[H|[H|[H|[]]]]]]; inversion H; reflexivity.
Qed.


(** X10. The days returned by [get_8h_count_df] are midnights in strictly
    increasing order: one row per day at most. *)
Theorem get_8h_count_df_index_increasing (data : list Raw.row)
    (intersection_name : string) (holidays : list Z) :
  StronglySorted Z.lt
    (map D8.date (get_8h_count_df data intersection_name holidays))
  /\ Forall (fun r => time_of_day (D8.date r) = 0)
            (get_8h_count_df data intersection_name holidays).
Proof.
  rewrite get_8h_count_df_stages. split.
  - apply sorted_filter. rewrite map_map. cbn [add_total D8.date].
    apply sorted_filter, sorted_filter. rewrite daily_sums_dates.
    apply bins_increasing. reflexivity.
  - apply Forall_forall. intros r Hr.
    apply filter_In in Hr. destruct Hr as [Hr _].
    apply in_map_iff in Hr. destruct Hr as (s & <- & Hs).
    apply filter_In in Hs. destruct Hs as [Hs _].
    apply filter_In in Hs. destruct Hs as [Hs _].
    destruct (daily_sums_row _ _ Hs) as (k & Hk & _).
    cbn [add_total D8.date]. rewrite Hk. apply time_of_day_multiple.
Qed.


(** A record of 09:45 is counted, one of 10:00 is not. *)
Example stc_hour_boundaries :
  stc_hour (tue_2022_05_03 + clock 9 45) = true
  /\ stc_hour (tue_2022_05_03 + clock 10 0) = false
  /\ stc_hour (tue_2022_05_03 + clock 18 59) = true
  /\ stc_hour (tue_2022_05_03 + clock 19 0) = false
  /\ stc_hour (tue_2022_05_03 + clock 6 59) = false.
Proof. vm_compute. repeat split. Qed.

(** ** The totals of the short-term days, with int64 columns *)

Lemma wrap_small (z : Z) : - 2 ^ 63 <= z < 2 ^ 63 -> I64.wrap z = z.
Proof. intros H. unfold I64.wrap. rewrite Z.mod_small; lia. Qed.

Lemma wrap_add_r (x y : Z) : I64.wrap (x + I64.wrap y) = I64.wrap (x + y).
Proof.
  unfold I64.wrap. f_equal.
  replace (x + ((y + 2 ^ 63) mod 2 ^ 64 - 2 ^ 63) + 2 ^ 63)
    with (x + (y + 2 ^ 63) mod 2 ^ 64) by lia.
  rewrite Zplus_mod_idemp_r. f_equal. lia.
Qed.

(** A sum in int64 is the sum of the integers, wrapped around once. *)
Lemma sum_col_wrap (A : Type) (col : A -> Z) (g : list A) :
  I64.sum_col col g = I64.wrap (sum_col col g).
Proof.
  unfold I64.sum_col, sum_col. induction g as [|x g IH]; simpl.
  - reflexivity.
  - rewrite IH. unfold I64.add. apply wrap_add_r.
Qed.

Lemma sum_col_filter_abs (A : Type) (f w : A -> Z) (p : A -> bool)
    (l : list A) :
  (forall x, Z.abs (f x) <= w x) ->
  Z.abs (sum_col f (filter p l)) <= sum_col w l.
Proof.
  intros H. unfold sum_col. induction l as [|x l IH]; simpl; [lia|].
  specialize (H x). destruct (p x); simpl; lia.
Qed.

Lemma counts_fit_filter (data : list Raw.row) (p : Raw.row -> bool) :
  counts_fit data -> counts_fit (filter p data).
Proof.
  unfold counts_fit. intros H.
  match goal with
  | |- sum_col ?w _ <= _ =>
      pose proof (sum_col_filter_abs Raw.row w w p data) as Hle
  end.
  cbv beta in Hle. specialize (Hle ltac:(intros x; lia)). lia.
Qed.

(** On a table that fits, a sum of a column over a selection of the
    records is far from the ends of int64. *)
Lemma counts_fit_sum (data : list Raw.row) (p : Raw.row -> bool)
    (c : Raw.row -> Z) (c' : Sums.row -> Z) :
  counts_fit data -> In (c, c') count_columns ->
  Z.abs (sum_col c (filter p data)) <= 2 ^ 46.
Proof.
  unfold counts_fit. intros H Hc.
  eapply Z.le_trans; [|exact H].
  apply sum_col_filter_abs. intros x. simpl in Hc.
  destruct Hc as [E|[E|[E|[E|[E|[]]]]]]; inversion E; subst; lia.
Qed.

Lemma hourly_sums_fit (df_int : list Raw.row) :
  counts_fit df_int -> I64.hourly_sums df_int = hourly_sums df_int.
Proof.
  intros Hfit. unfold I64.hourly_sums, hourly_sums, resample.
  rewrite !map_map. apply map_ext. intros b.
  assert (E : forall c c', In (c, c') count_columns ->
            I64.sum_col c (filter (fun r => in_bin SECONDS_PER_HOUR b
                                              (Raw.date r)) df_int)
            = sum_col c (filter (fun r => in_bin SECONDS_PER_HOUR b
                                            (Raw.date r)) df_int)).
  { intros c c' Hc. rewrite sum_col_wrap. apply wrap_small.
    pose proof (counts_fit_sum df_int
                  (fun r => in_bin SECONDS_PER_HOUR b (Raw.date r))
                  c c' Hfit Hc). lia. }
  rewrite (E Raw.ped_N Sums.ped_N), (E Raw.ped_S Sums.ped_S),
    (E Raw.ped_W Sums.ped_W), (E Raw.ped_E Sums.ped_E),
    (E Raw.vol_vehicle Sums.vol_vehicle) by (simpl; tauto).
  reflexivity.
Qed.

(** The daily sums of the selected hours of a table that fits. *)
Lemma daily_sums_bound (df_int : list Raw.row) (s : Sums.row)
    (c : Raw.row -> Z) (c' : Sums.row -> Z) :
  counts_fit df_int -> In (c, c') count_columns ->
  In s (daily_sums (stc_windows (hourly_sums df_int))) ->
  Z.abs (c' s) <= 2 ^ 46.
Proof.
  intros Hfit Hc Hs.
  destruct (daily_sums_row _ _ Hs) as (k & Hk & Hcols).
  rewrite (Hcols c c' Hc), Hk, (stc_windows_sum df_int k c c' Hc).
  apply (counts_fit_sum _ _ c c'); [|exact Hc].
  now apply counts_fit_filter.
Qed.

Lemma daily_sums_fit (df_int : list Raw.row) :
  counts_fit df_int ->
  I64.daily_sums (stc_windows (hourly_sums df_int))
  = daily_sums (stc_windows (hourly_sums df_int)).
Proof.
  intros Hfit. unfold I64.daily_sums, daily_sums, resample.
  rewrite !map_map. apply map_ext_in. intros b Hb.
  apply bins_multiple in Hb. destruct Hb as (k & ->).
  assert (E : forall c c', In (c, c') count_columns ->
            I64.sum_col c'
              (filter (fun h => in_bin SECONDS_PER_DAY (SECONDS_PER_DAY * k)
                                  (Sums.date h))
                      (stc_windows (hourly_sums df_int)))
            = sum_col c'
                (filter (fun h => in_bin SECONDS_PER_DAY (SECONDS_PER_DAY * k)
                                    (Sums.date h))
                        (stc_windows (hourly_sums df_int)))).
  { intros c c' Hc. rewrite sum_col_wrap. apply wrap_small.
    rewrite (stc_windows_sum df_int k c c' Hc).
    pose proof (counts_fit_sum _ (fun x => stc_hour (Raw.date x)) c c'
                  (counts_fit_filter df_int
                     (fun x => in_bin SECONDS_PER_DAY (SECONDS_PER_DAY * k)
                                 (Raw.date x)) Hfit) Hc). lia. }
  rewrite (E Raw.ped_N Sums.ped_N), (E Raw.ped_S Sums.ped_S),
    (E Raw.ped_W Sums.ped_W), (E Raw.ped_E Sums.ped_E),
    (E Raw.vol_vehicle Sums.vol_vehicle) by (simpl; tauto).
  reflexivity.
Qed.

Lemma add_total_fit (df_int : list Raw.row) (s : Sums.row) :
  counts_fit df_int ->
  In s (daily_sums (stc_windows (hourly_sums df_int))) ->
  I64.add_total s = add_total s.
Proof.
  intros Hfit Hs.
  pose proof (daily_sums_bound df_int s Raw.ped_N Sums.ped_N Hfit) as HN.
  pose proof (daily_sums_bound df_int s Raw.ped_S Sums.ped_S Hfit) as HS.
  pose proof (daily_sums_bound df_int s Raw.ped_W Sums.ped_W Hfit) as HW.
  pose proof (daily_sums_bound df_int s Raw.ped_E Sums.ped_E Hfit) as HE.
  specialize (HN ltac:(simpl; tauto) Hs). specialize (HS ltac:(simpl; tauto) Hs).
  specialize (HW ltac:(simpl; tauto) Hs). specialize (HE ltac:(simpl; tauto) Hs).
  unfold I64.add_total, add_total, I64.add. f_equal.
  rewrite (wrap_small (Sums.ped_N s + Sums.ped_S s)) by lia.
  rewrite (wrap_small (Sums.ped_N s + Sums.ped_S s + Sums.ped_W s)) by lia.
  apply wrap_small. lia.
Qed.

(** On a table that fits, the int64 sums of [get_8h_count_df] are the sums
    of the integers: nothing wraps around. *)
Lemma get_8h_count_df_fit (data : list Raw.row) (intersection_name : string)
    (holidays : list Z) :
  counts_fit data ->
  I64.get_8h_count_df data intersection_name holidays
  = get_8h_count_df data intersection_name holidays.
Proof.
  intros Hfit. rewrite get_8h_count_df_stages. unfold I64.get_8h_count_df.
  cbv zeta.
  set (df_int := filter (fun r => String.eqb (Raw.name r) intersection_name)
                        data).
  assert (Hint : counts_fit df_int) by now apply counts_fit_filter.
  rewrite (hourly_sums_fit df_int Hint).
  fold (stc_windows (hourly_sums df_int)).
  rewrite (daily_sums_fit df_int Hint).
  f_equal. apply map_ext_in. intros s Hs.
  apply filter_In in Hs. destruct Hs as [Hs _].
  apply filter_In in Hs. destruct Hs as [Hs _].
  now apply (add_total_fit df_int).
Qed.

Lemma ratios_defined_nonzero (r : D8.row) :
  D8.total r <> 0 -> ratios_defined r.
Proof.
  intros Hnz. unfold ratios_defined.
  split; [exact Hnz|].
  split; [unfold feq0, of_int; now apply inject_Z_nonzero|].
  intros c _. unfold fdiv, of_int.
  rewrite (inject_Z_nonzero _ Hnz). eexists. reflexivity.
Qed.

(** The total of a short-term day is not always above 0.  With int64
    columns, the two records of [wrapping_counts], [2^62] pedestrians each,
    add up to [-2^63]: the day is returned with this total.  And a negative
    count is summed like any other: the day of [negative_count] is returned
    with a total of -1.  Neither total is 0, so neither day is dropped. *)
Lemma get_8h_count_df_total_not_positive :
  (nonneg_counts wrapping_counts
   /\ I64.get_8h_count_df wrapping_counts "A" []
      = [D8.mk tue_2022_05_03 (- 2 ^ 63) 0 0 0 2 (- 2 ^ 63)]
   /\ ~ Forall (fun r => 0 < D8.total r)
          (I64.get_8h_count_df wrapping_counts "A" []))
  /\ (get_8h_count_df negative_count "A" []
      = [D8.mk tue_2022_05_03 (-1) 0 0 0 1 (-1)]
      /\ ~ Forall (fun r => 0 < D8.total r)
             (get_8h_count_df negative_count "A" [])).
Proof.
  assert (E1 : I64.get_8h_count_df wrapping_counts "A" []
               = [D8.mk tue_2022_05_03 (- 2 ^ 63) 0 0 0 2 (- 2 ^ 63)])
    by (vm_compute; reflexivity).
  assert (E2 : get_8h_count_df negative_count "A" []
               = [D8.mk tue_2022_05_03 (-1) 0 0 0 1 (-1)])
    by (vm_compute; reflexivity).
  split; [split; [|split; [exact E1|]] | split; [exact E2|]].
  - intros r Hr. simpl in Hr. destruct Hr as [<-|[<-|[]]]; simpl; lia.
  - rewrite E1. intros H. inversion H as [|r l Hr _]; subst.
    simpl in Hr. lia.
  - rewrite E2. intros H. inversion H as [|r l Hr _]; subst.
    simpl in Hr. lia.
Qed.

(** C9, as the code has it.  Every row returned by [get_8h_count_df] has a
    total different from 0, with the sums taken in int64 as with the sums
    of the integers: each of the four divisions [ped_X / total] that
    [get_ratio_errors] makes for it with [stc_num = 1] has a non-zero
    denominator and gives a number.  When the raw counts are non-negative
    and fit ([counts_fit]), no sum wraps around and the total is above 0. *)
Theorem get_8h_count_df_total_nonzero (data : list Raw.row)
    (intersection_name : string) (holidays : list Z) :
  Forall ratios_defined (I64.get_8h_count_df data intersection_name holidays)
  /\ Forall ratios_defined (get_8h_count_df data intersection_name holidays)
  /\ (nonneg_counts data -> counts_fit data ->
      I64.get_8h_count_df data intersection_name holidays
      = get_8h_count_df data intersection_name holidays
      /\ Forall (fun r => 0 < D8.total r)
           (get_8h_count_df data intersection_name holidays)).
Proof.
  split; [|split].
  - apply Forall_forall. intros r Hr. unfold I64.get_8h_count_df in Hr.
    apply filter_In in Hr. destruct Hr as [_ Hnz].
    apply negb_true_iff, Z.eqb_neq in Hnz.
    now apply ratios_defined_nonzero.
  - apply Forall_forall. intros r Hr. unfold get_8h_count_df in Hr.
    apply filter_In in Hr. destruct Hr as [_ Hnz].
    apply negb_true_iff, Z.eqb_neq in Hnz.
    now apply ratios_defined_nonzero.
  - intros Hdata Hfit. split; [now apply get_8h_count_df_fit|].
    apply Forall_forall. intros r Hr.
    destruct (get_8h_count_df_rows _ _ _ _ Hdata Hr) as (s & -> & Hs & Hnz).
    unfold nonneg_sums in Hs. simpl in Hnz |- *. lia.
Qed.

Lemma get_8h_count_df_total_nonzero_witness :
  Forall ratios_defined (I64.get_8h_count_df stc_raw "A" stc_holidays)
  /\ Forall ratios_defined (get_8h_count_df stc_raw "A" stc_holidays)
  /\ I64.get_8h_count_df stc_raw "A" stc_holidays
     = get_8h_count_df stc_raw "A" stc_holidays
  /\ Forall (fun r => 0 < D8.total r)
       (get_8h_count_df stc_raw "A" stc_holidays).
Proof.
  destruct (get_8h_count_df_total_nonzero stc_raw "A" stc_holidays)
    as (H64 & Hnz & Hpos).
  split; [exact H64|]. split; [exact Hnz|]. apply Hpos.
  - intros r Hr. simpl in Hr.
    destruct Hr as [<-|[<-|[<-|[<-|[<-|[]]]]]]; simpl; lia.
  - unfold counts_fit. vm_compute. discriminate.
Defined.

(** ** An intersection without records *)

(** X12. An intersection without any record in the table gives two empty
    frames: no day of 24-hour volumes and no short-term day. *)
Theorem unknown_intersection_empty (data : list Raw.row)
    (intersection_name : string) (holidays : list Z) (H15 H24 T24 : Z) :
  (forall r, In r data -> Raw.name r <> intersection_name) ->
  get_24h_count_df data intersection_name H15 H24 T24 = []
  /\ get_8h_count_df data intersection_name holidays = [].
Proof.
  intros H.
  assert (E : filter (fun r => String.eqb (Raw.name r) intersection_name) data
              = []).
  { induction data as [|x data IH]; simpl; [reflexivity|].
    destruct (String.eqb_spec (Raw.name x) intersection_name) as [Heq|Hne].
    - exfalso. apply (H x); [now left | exact Heq].
    - apply IH. intros r Hr. apply H. now right. }
  split.
  - unfold get_24h_count_df. now rewrite E.
  - rewrite get_8h_count_df_stages, E. reflexivity.
Qed.

Lemma unknown_intersection_empty_witness :
  get_24h_count_df stc_raw "B" 100 500 72 = []
  /\ get_8h_count_df stc_raw "B" stc_holidays = [].
Proof.
  apply (unknown_intersection_empty stc_raw "B" stc_holidays 100 500 72).
  intros r Hr. simpl in Hr.
  destruct Hr as [<-|[<-|[<-|[<-|[<-|[]]]]]]; discriminate.
Defined.

(** ** Ranges of the true ratios and of the errors *)

Lemma ratio_of_part (a tot : Q) :
  (0 <= a)%Q -> (a <= tot)%Q -> (0 < tot)%Q -> (0 <= a / tot <= 1)%Q.
Proof.
  intros Ha Hle Hpos. split.
  - apply Qle_shift_div_l; [exact Hpos | Lqa.lra].
  - apply Qle_shift_div_r; [exact Hpos | Lqa.lra].
Qed.

(** The true ratios of a table of valid volumes are ratios. *)
Lemma get_true_ratio_ratios (df : list D24.row) :
  valid_volumes df ->
  is_ratio (ratio_N_true (get_true_ratio df))
  /\ is_ratio (ratio_S_true (get_true_ratio df))
  /\ is_ratio (ratio_W_true (get_true_ratio df))
  /\ is_ratio (ratio_E_true (get_true_ratio df)).
Proof.
  intros Hv.
  destruct (get_AADPT_nonneg df D24.ped_N Hv) as (qN & HN & PN);
    [simpl; tauto|].
  destruct (get_AADPT_nonneg df D24.ped_S Hv) as (qS & HS & PS);
    [simpl; tauto|].
  destruct (get_AADPT_nonneg df D24.ped_W Hv) as (qW & HW & PW);
    [simpl; tauto|].
  destruct (get_AADPT_nonneg df D24.ped_E Hv) as (qE & HE & PE);
    [simpl; tauto|].
  unfold get_true_ratio. rewrite HN, HS, HW, HE.
  unfold fadd, lift2, feq0, fdiv. cbn [ratio_N_true ratio_S_true ratio_W_true
                                       ratio_E_true].
  destruct (Qeq_bool (qN + qS + qW + qE) 0) eqn:E.
  - unfold is_ratio, of_int.
    repeat split; exists (inject_Z 0); (split; [reflexivity|]);
      split; discriminate.
  - apply Qeq_bool_neq in E.
    assert (Hpos : (0 < qN + qS + qW + qE)%Q).
    { apply Qle_lteq in PN.
      assert (0 <= qN + qS + qW + qE)%Q by Lqa.lra.
      apply Qle_lteq in H. destruct H as [H|H]; [exact H|].
      exfalso. apply E. now symmetry. }
    unfold is_ratio.
    repeat split; eexists; (split; [reflexivity|]);
      apply ratio_of_part; try assumption; Lqa.lra.
Qed.

(** The relative error of a ratio against a true ratio. *)
Lemma ratio_err_bounded (r t : Q) :
  (0 <= r <= 1)%Q -> (0 <= t <= 1)%Q ->
  bounded_error (ratio_err (Some r) (Some t)).
Proof.
  intros Hr Ht. unfold ratio_err, fsub, fadd, fdiv, lift2.
  assert (Hpos : (0 < t + (1 # 10000))%Q) by Lqa.lra.
  assert (E : Qeq_bool (t + (1 # 10000)) 0 = false).
  { destruct (Qeq_bool (t + (1 # 10000)) 0) eqn:E'; [|reflexivity].
    apply Qeq_bool_eq in E'. Lqa.lra. }
  rewrite E. eexists. split; [reflexivity|]. split.
  - apply Qlt_shift_div_l; [exact Hpos | Lqa.lra].
  - apply Qle_shift_div_r; [exact Hpos | Lqa.lra].
Qed.

Lemma counts_ratio (a tot : Z) :
  0 <= a <= tot -> 0 < tot ->
  exists q, fdiv (of_int a) (of_int tot) = Some q /\ (0 <= q <= 1)%Q.
Proof.
  intros Ha Hpos. unfold fdiv, of_int.
  rewrite inject_Z_nonzero by lia. eexists. split; [reflexivity|].
  apply ratio_of_part; unfold Qle, Qlt; simpl; lia.
Qed.

Lemma quarter_of_four (a b c d : float) :
  bounded_error a -> bounded_error b -> bounded_error c -> bounded_error d ->
  exists q,
    fmul (Some (1 # 4)%Q) (fadd (fadd (fadd (fabs a) (fabs b)) (fabs c))
                               (fabs d)) = Some q
    /\ (0 <= q <= 10000)%Q.
Proof.
  intros (qa & -> & Ha) (qb & -> & Hb) (qc & -> & Hc) (qd & -> & Hd).
  simpl. eexists. split; [reflexivity|].
  assert (Habs : forall x, (-1 < x <= 10000)%Q -> (0 <= Qabs x <= 10000)%Q).
  { intros x Hx. split; [apply Qabs_nonneg|].
    apply Qabs_Qle_condition. Lqa.lra. }
  apply Habs in Ha. apply Habs in Hb. apply Habs in Hc. apply Habs in Hd.
  Lqa.lra.
Qed.

(** The errors of one short-term day against ratios. *)
Lemma day_errors_bounded (t : true_ratio) (r : D8.row) :
  is_ratio (ratio_N_true t) -> is_ratio (ratio_S_true t) ->
  is_ratio (ratio_W_true t) -> is_ratio (ratio_E_true t) ->
  counted_day r ->
  let e := day_errors t r in
  bounded_error (Err.ratio_N_errs e) /\ bounded_error (Err.ratio_S_errs e)
  /\ bounded_error (Err.ratio_W_errs e) /\ bounded_error (Err.ratio_E_errs e)
  /\ exists q, Err.ratio_avg_errs e = Some q /\ (0 <= q <= 10000)%Q.
Proof.
  intros (tN & EN & HtN) (tS & ES & HtS) (tW & EW & HtW) (tE & EE & HtE).
  intros (HN & HS & HW & HE & Htot & Hpos). cbv zeta.
  destruct (counts_ratio (D8.ped_N r) (D8.total r)) as (rN & RN & HrN);
    [lia | lia |].
  destruct (counts_ratio (D8.ped_S r) (D8.total r)) as (rS & RS & HrS);
    [lia | lia |].
  destruct (counts_ratio (D8.ped_W r) (D8.total r)) as (rW & RW & HrW);
    [lia | lia |].
  destruct (counts_ratio (D8.ped_E r) (D8.total r)) as (rE & RE & HrE);
    [lia | lia |].
  unfold day_errors. cbv zeta.
  cbn [Err.ratio_N_errs Err.ratio_S_errs Err.ratio_W_errs Err.ratio_E_errs
       Err.ratio_avg_errs].
  rewrite RN, RS, RW, RE, EN, ES, EW, EE.
  pose proof (ratio_err_bounded rN tN HrN HtN) as BN.
  pose proof (ratio_err_bounded rS tS HrS HtS) as BS.
  pose proof (ratio_err_bounded rW tW HrW HtW) as BW.
  pose proof (ratio_err_bounded rE tE HrE HtE) as BE.
  repeat split; try assumption.
  now apply quarter_of_four.
Qed.

Lemma get_8h_count_df_counted (data : list Raw.row) (intersection_name : string)
    (holidays : list Z) (r : D8.row) :
  nonneg_counts data ->
  In r (get_8h_count_df data intersection_name holidays) -> counted_day r.
Proof.
  intros Hdata Hr.
  destruct (get_8h_count_df_rows _ _ _ _ Hdata Hr) as (s & -> & Hs & Hnz).
  unfold nonneg_sums in Hs. unfold counted_day. simpl in *. lia.
Qed.

(** X13. With [stc_num = 1] and the two frames taken from one raw table
    of non-negative counts that stay exact ([counts_fit]), as the driver
    takes them, [get_ratio_errors] returns one row per short-term day; in
    each row the four directional errors are numbers above -1 and at most
    10000 (the bound that the constant 0.0001 of the denominator sets), and
    the combined error is a number between 0 and 10000.  No NaN or infinity
    is produced. *)
Theorem get_ratio_errors_single_day_bounded (RandomState : Type)
    (choice : RandomState -> nat -> nat -> list nat * RandomState)
    (g : RandomState) (data : list Raw.row) (intersection_name : string)
    (holidays : list Z) (H15 H24 T24 repeat : Z) :
  nonneg_counts data -> counts_fit data -> 1 <= T24 ->
  let df_int_24h := get_24h_count_df data intersection_name H15 H24 T24 in
  let df_int_8h := get_8h_count_df data intersection_name holidays in
  exists errs,
    get_ratio_errors RandomState choice g df_int_8h df_int_24h 1 repeat
    = (Ok errs, g)
    /\ List.length errs = List.length df_int_8h
    /\ Forall (fun e =>
                 bounded_error (Err.ratio_N_errs e)
                 /\ bounded_error (Err.ratio_S_errs e)
                 /\ bounded_error (Err.ratio_W_errs e)
                 /\ bounded_error (Err.ratio_E_errs e)
                 /\ exists q, Err.ratio_avg_errs e = Some q
                              /\ (0 <= q <= 10000)%Q)
              errs.
Proof.
  intros Hdata _ HT df_int_24h df_int_8h.
  assert (Hv : valid_volumes df_int_24h)
    by now apply get_24h_count_df_volumes.
  eexists. split; [reflexivity|].
  split; [apply length_map|].
  apply Forall_forall. intros e He. apply in_map_iff in He.
  destruct He as (r & <- & Hr).
  destruct (get_true_ratio_ratios df_int_24h Hv) as (HN & HS & HW & HE).
  apply day_errors_bounded; try assumption.
  now apply (get_8h_count_df_counted data intersection_name holidays).
Qed.

Lemma get_ratio_errors_single_day_bounded_witness :
  let df_int_24h := get_24h_count_df stc_raw "A" 100 500 1 in
  let df_int_8h := get_8h_count_df stc_raw "A" stc_holidays in
  exists errs,
    get_ratio_errors nat rotating_choice 0%nat df_int_8h df_int_24h 1 100
    = (Ok errs, 0%nat)
    /\ List.length errs = List.length df_int_8h
    /\ Forall (fun e =>
                 bounded_error (Err.ratio_N_errs e)
                 /\ bounded_error (Err.ratio_S_errs e)
                 /\ bounded_error (Err.ratio_W_errs e)
                 /\ bounded_error (Err.ratio_E_errs e)
                 /\ exists q, Err.ratio_avg_errs e = Some q
                              /\ (0 <= q <= 10000)%Q)
              errs.
Proof.
  apply (get_ratio_errors_single_day_bounded nat rotating_choice 0%nat
           stc_raw "A" stc_holidays 100 500 1 100).
  - intros r Hr. simpl in Hr.
    destruct Hr as [<-|[<-|[<-|[<-|[<-|[]]]]]]; simpl; lia.
  - unfold counts_fit. vm_compute. discriminate.
  - lia.
Defined.

(** ** The sampling branch *)

Lemma draws_length (RandomState : Type)
    (choice : RandomState -> nat -> nat -> list nat * RandomState)
    (repeat : nat) (g : RandomState) (n k : nat) :
  List.length (fst (draws choice repeat g n k)) = repeat.
Proof.
  revert g. induction repeat as [|repeat IH]; intros g; simpl; [reflexivity|].
  destruct (choice g n k) as [locs g']. specialize (IH g').
  destruct (draws choice repeat g' n k) as [rest g'']. simpl in *.
  now rewrite IH.
Qed.

Lemma draws_In (RandomState : Type)
    (choice : RandomState -> nat -> nat -> list nat * RandomState)
    (repeat : nat) (g : RandomState) (n k : nat) (locs : list nat) :
  In locs (fst (draws choice repeat g n k)) ->
  exists g0, locs = fst (choice g0 n k).
Proof.
  revert g. induction repeat as [|repeat IH]; intros g; simpl; [tauto|].
  destruct (choice g n k) as [locs0 g'] eqn:E. specialize (IH g').
  destruct (draws choice repeat g' n k) as [rest g'']. simpl in *.
  intros [<-|H].
  - exists g. now rewrite E.
  - now apply IH.
Qed.

Lemma take_In (A : Type) (locs : list nat) (df : list A) (x : A) :
  In x (take locs df) -> In x df.
Proof.
  unfold take. intros H. apply in_flat_map in H.
  destruct H as (i & _ & Hi).
  destruct (nth_error df i) as [r|] eqn:E; [|contradiction].
  destruct Hi as [<-|[]]. now apply nth_error_In in E.
Qed.

Lemma take_length (A : Type) (locs : list nat) (df : list A) :
  (forall i, In i locs -> (i < List.length df)%nat) ->
  List.length (take locs df) = List.length locs.
Proof.
  unfold take. induction locs as [|i locs IH]; intros H; simpl; [reflexivity|].
  rewrite length_app, IH by (intros j Hj; apply H; now right).
  destruct (nth_error df i) as [r|] eqn:E; [reflexivity|].
  apply nth_error_None in E.
  assert (i < List.length df)%nat by (apply H; now left). lia.
Qed.

(** The sums of drawn days are those of a counted day. *)
Lemma drawn_sums (drawn : list D8.row) :
  drawn <> [] -> (forall r, In r drawn -> counted_day r) ->
  0 <= sum_col D8.ped_N drawn /\ 0 <= sum_col D8.ped_S drawn
  /\ 0 <= sum_col D8.ped_W drawn /\ 0 <= sum_col D8.ped_E drawn
  /\ sum_col D8.total drawn
     = sum_col D8.ped_N drawn + sum_col D8.ped_S drawn
       + sum_col D8.ped_W drawn + sum_col D8.ped_E drawn
  /\ 0 < sum_col D8.total drawn.
Proof.
  intros Hne H.
  assert (Hsum : 0 <= sum_col D8.ped_N drawn /\ 0 <= sum_col D8.ped_S drawn
                 /\ 0 <= sum_col D8.ped_W drawn /\ 0 <= sum_col D8.ped_E drawn
                 /\ sum_col D8.total drawn
                    = sum_col D8.ped_N drawn + sum_col D8.ped_S drawn
                      + sum_col D8.ped_W drawn + sum_col D8.ped_E drawn
                 /\ (drawn <> [] -> 0 < sum_col D8.total drawn)).
  { clear Hne. unfold sum_col.
    induction drawn as [|r drawn IH]; simpl; [repeat split; try lia; tauto|].
    destruct (H r (or_introl eq_refl)) as (HN & HS & HW & HE & Ht & Hp).
    destruct IH as (IN & IS & IW & IE & It & _);
      [intros x Hx; apply H; now right|].
    repeat split; intros; lia. }
  destruct Hsum as (? & ? & ? & ? & ? & Hp). repeat split; auto.
Qed.

Lemma sample_errors_bounded (t : true_ratio) (drawn : list D8.row) :
  is_ratio (ratio_N_true t) -> is_ratio (ratio_S_true t) ->
  is_ratio (ratio_W_true t) -> is_ratio (ratio_E_true t) ->
  drawn <> [] -> (forall r, In r drawn -> counted_day r) ->
  let e := sample_errors t drawn in
  bounded_error (Err.ratio_N_errs e) /\ bounded_error (Err.ratio_S_errs e)
  /\ bounded_error (Err.ratio_W_errs e) /\ bounded_error (Err.ratio_E_errs e)
  /\ exists q, Err.ratio_avg_errs e = Some q /\ (0 <= q <= 10000)%Q.
Proof.
  intros (tN & EN & HtN) (tS & ES & HtS) (tW & EW & HtW) (tE & EE & HtE).
  intros Hne Hrows. cbv zeta.
  destruct (drawn_sums drawn Hne Hrows) as (HN & HS & HW & HE & Htot & Hpos).
  destruct (counts_ratio (sum_col D8.ped_N drawn) (sum_col D8.total drawn))
    as (rN & RN & HrN); [lia | lia |].
  destruct (counts_ratio (sum_col D8.ped_S drawn) (sum_col D8.total drawn))
    as (rS & RS & HrS); [lia | lia |].
  destruct (counts_ratio (sum_col D8.ped_W drawn) (sum_col D8.total drawn))
    as (rW & RW & HrW); [lia | lia |].
  destruct (counts_ratio (sum_col D8.ped_E drawn) (sum_col D8.total drawn))
    as (rE & RE & HrE); [lia | lia |].
  unfold sample_errors. cbv zeta.
  cbn [Err.ratio_N_errs Err.ratio_S_errs Err.ratio_W_errs Err.ratio_E_errs
       Err.ratio_avg_errs].
  rewrite RN, RS, RW, RE, EN, ES, EW, EE.
  pose proof (ratio_err_bounded rN tN HrN HtN) as BN.
  pose proof (ratio_err_bounded rS tS HrS HtS) as BS.
  pose proof (ratio_err_bounded rW tW HrW HtW) as BW.
  pose proof (ratio_err_bounded rE tE HrE HtE) as BE.
  repeat split; try assumption.
  now apply quarter_of_four.
Qed.

Lemma rotating_choice_positions : draws_positions rotating_choice.
Proof.
  intros g n k Hk. unfold rotating_choice. simpl. split; [|split].
  - now rewrite length_map, length_seq.
  - apply NoDup_map_NoDup_ForallPairs; [|apply seq_NoDup].
    intros a b Ha Hb E. apply in_seq in Ha. apply in_seq in Hb.
    assert (Hn : n <> 0%nat) by lia.
    pose proof (Nat.div_mod_eq (g + a) n) as Da.
    pose proof (Nat.div_mod_eq (g + b) n) as Db.
    rewrite E in Da.
    set (q1 := ((g + a) / n)%nat) in Da. set (q2 := ((g + b) / n)%nat) in Db.
    set (m := ((g + b) mod n)%nat) in Da, Db.
    destruct (Nat.lt_trichotomy q1 q2) as [H|[H|H]]; nia.
  - intros i Hi. apply in_map_iff in Hi. destruct Hi as (j & <- & Hj).
    apply in_seq in Hj. apply Nat.mod_upper_bound. lia.
Qed.

(** X14. With the two frames taken from one raw table of non-negative
    counts that stay exact ([counts_fit]), [stc_num] between 2 and the
    number of short-term days, and a generator that draws [stc_num]
    distinct positions of the table at each call, [get_ratio_errors]
    returns exactly [repeat] rows; in each of them the four directional
    errors are numbers above -1 and at most 10000 and the combined error is
    a number between 0 and 10000. *)
Theorem get_ratio_errors_samples_bounded (RandomState : Type)
    (choice : RandomState -> nat -> nat -> list nat * RandomState)
    (g : RandomState) (data : list Raw.row) (intersection_name : string)
    (holidays : list Z) (H15 H24 T24 stc_num repeat : Z) :
  draws_positions choice ->
  nonneg_counts data -> counts_fit data -> 1 <= T24 ->
  let df_int_24h := get_24h_count_df data intersection_name H15 H24 T24 in
  let df_int_8h := get_8h_count_df data intersection_name holidays in
  2 <= stc_num <= count df_int_8h ->
  exists errs g',
    get_ratio_errors RandomState choice g df_int_8h df_int_24h stc_num repeat
    = (Ok errs, g')
    /\ List.length errs = Z.to_nat repeat
    /\ Forall (fun e =>
                 bounded_error (Err.ratio_N_errs e)
                 /\ bounded_error (Err.ratio_S_errs e)
                 /\ bounded_error (Err.ratio_W_errs e)
                 /\ bounded_error (Err.ratio_E_errs e)
                 /\ exists q, Err.ratio_avg_errs e = Some q
                              /\ (0 <= q <= 10000)%Q)
              errs.
Proof.
  intros Hchoice Hdata _ HT df_int_24h df_int_8h Hk.
  assert (Hv : valid_volumes df_int_24h)
    by now apply get_24h_count_df_volumes.
  assert (Hrows : forall r, In r df_int_8h -> counted_day r).
  { intros r Hr.
    now apply (get_8h_count_df_counted data intersection_name holidays). }
  unfold get_ratio_errors.
  assert (E : (stc_num =? 1) = false) by (apply Z.eqb_neq; lia).
  rewrite E, trials_draws by lia.
  do 2 eexists. split; [reflexivity|].
  split; [now rewrite length_map, draws_length|].
  apply Forall_forall. intros e He. apply in_map_iff in He.
  destruct He as (locs & <- & Hlocs).
  apply draws_In in Hlocs. destruct Hlocs as (g0 & ->).
  destruct (Hchoice g0 (List.length df_int_8h) (Z.to_nat stc_num))
    as (Hlen & _ & Hpos).
  { unfold count in Hk. lia. }
  destruct (get_true_ratio_ratios df_int_24h Hv) as (HN & HS & HW & HE).
  apply sample_errors_bounded; try assumption.
  - intros Hnil. apply (f_equal (@List.length D8.row)) in Hnil.
    rewrite take_length in Hnil by exact Hpos.
    rewrite Hlen in Hnil. simpl in Hnil. lia.
  - intros r Hr. apply Hrows. now apply take_In in Hr.
Qed.

Lemma get_ratio_errors_samples_bounded_witness :
  let df_int_24h := get_24h_count_df stc_raw "A" 100 500 1 in
  let df_int_8h := get_8h_count_df stc_raw "A" [] in
  exists errs g',
    get_ratio_errors nat rotating_choice 0%nat df_int_8h df_int_24h 2 100
    = (Ok errs, g')
    /\ List.length errs = Z.to_nat 100
    /\ Forall (fun e =>
                 bounded_error (Err.ratio_N_errs e)
                 /\ bounded_error (Err.ratio_S_errs e)
                 /\ bounded_error (Err.ratio_W_errs e)
                 /\ bounded_error (Err.ratio_E_errs e)
                 /\ exists q, Err.ratio_avg_errs e = Some q
                              /\ (0 <= q <= 10000)%Q)
              errs.
Proof.
  apply (get_ratio_errors_samples_bounded nat rotating_choice 0%nat
           stc_raw "A" [] 100 500 1 2 100).
  - exact rotating_choice_positions.
  - intros r Hr. simpl in Hr.
    destruct Hr as [<-|[<-|[<-|[<-|[<-|[]]]]]]; simpl; lia.
  - unfold counts_fit. vm_compute. discriminate.
  - lia.
  - vm_compute. split; discriminate.
Defined.

(** X15. The relative error of the code's formula has the sign of the
    deviation: against a true ratio that is not negative, it is 0 exactly
    when the estimated ratio equals the true ratio, and positive exactly
    when the estimate is above it. *)
Theorem ratio_err_sign (r t : Q) :
  (0 <= t)%Q ->
  exists q, ratio_err (Some r) (Some t) = Some q
            /\ ((q == 0)%Q <-> (r == t)%Q)
            /\ ((0 < q)%Q <-> (t < r)%Q).
Proof.
  intros Ht. unfold ratio_err, fsub, fadd, fdiv, lift2.
  assert (Hpos : (0 < t + (1 # 10000))%Q) by Lqa.lra.
  assert (E : Qeq_bool (t + (1 # 10000)) 0 = false).
  { destruct (Qeq_bool (t + (1 # 10000)) 0) eqn:E'; [|reflexivity].
    apply Qeq_bool_eq in E'. Lqa.lra. }
  rewrite E. eexists. split; [reflexivity|].
  set (c := (t + (1 # 10000))%Q) in *.
  assert (Hq : ((r - t) / c * c == r - t)%Q) by (field; Lqa.lra).
  set (q := ((r - t) / c)%Q) in *.
  split; split; intros H.
  - rewrite H in Hq. Lqa.lra.
  - assert (Hz : (q * c == 0)%Q) by (rewrite Hq; Lqa.lra).
    apply Qmult_integral in Hz. destruct Hz as [Hz|Hz]; [exact Hz | Lqa.lra].
  - assert (0 < q * c)%Q by (apply Qmult_lt_0_compat; assumption). Lqa.lra.
  - unfold q. apply Qlt_shift_div_l; [exact Hpos | Lqa.lra].
Qed.

Lemma ratio_err_sign_witness :
  exists q, ratio_err (Some (3 # 4)%Q) (Some (1 # 4)%Q) = Some q
            /\ ((q == 0)%Q <-> ((3 # 4) == (1 # 4))%Q)
            /\ ((0 < q)%Q <-> ((1 # 4) < (3 # 4))%Q).
Proof.
  apply (ratio_err_sign (3 # 4) (1 # 4)). discriminate.
Defined.

(** ** Order and range of the confidence summary *)

Section SummaryOrder.
Local Open Scope R_scope.

Lemma rint_monotone (x y : R) : x <= y -> (rint x <= rint y)%Z.
Proof.
  intros Hxy.
  pose proof (Rabs_le_bounds _ _ (rint_error x)) as Hx.
  pose proof (Rabs_le_bounds _ _ (rint_error y)) as Hy.
  destruct (Z_le_gt_dec (rint x) (rint y)) as [Hle|Hgt]; [exact Hle|].
  exfalso.
  assert (H1 : (rint y + 1 <= rint x)%Z) by lia.
  apply IZR_le in H1. rewrite plus_IZR in H1.
  assert (Heq : x = y) by lra.
  subst y. lia.
Qed.

Lemma round3_monotone (x y : R) : x <= y -> round3 x <= round3 y.
Proof.
  intros Hxy. unfold round3.
  assert (H : (rint (x * 1000) <= rint (y * 1000))%Z)
    by (apply rint_monotone; lra).
  apply IZR_le in H. lra.
Qed.

(** X16. The bounds returned by [get_confidence_interval] bracket the
    returned mean: lower bound <= mean <= upper bound, after rounding
    too. *)
Theorem get_confidence_interval_ordered (errs : list R) (p : Z) :
  errs <> [] -> (0 <= p <= 100)%Z ->
  exists lcb m ucb pct,
    get_confidence_interval errs p = Some (lcb, m, ucb, pct)
    /\ lcb <= m <= ucb.
Proof.
  intros Hne Hp.
  assert (Hrange : ((0 <=? p) && (p <=? 100))%Z = true).
  { apply andb_true_iff. split; apply Z.leb_le; lia. }
  exists (round3 (mean errs - Zstar * std errs)), (round3 (mean errs)),
    (round3 (mean errs + Zstar * std errs)), (round3 (percentile_at errs p)).
  split.
  - unfold get_confidence_interval.
    destruct errs as [|x l]; [contradiction|].
    rewrite Hrange. reflexivity.
  - assert (Hsd : 0 <= Zstar * std errs).
    { apply Rmult_le_pos; [unfold Zstar; lra | apply sqrt_pos]. }
    split; apply round3_monotone; lra.
Qed.

Lemma get_confidence_interval_ordered_witness :
  exists lcb m ucb pct,
    get_confidence_interval errs_example 85 = Some (lcb, m, ucb, pct)
    /\ lcb <= m <= ucb.
Proof.
  apply (get_confidence_interval_ordered errs_example 85).
  - discriminate.
  - lia.
Defined.

(** X18. For an array of a single error [x] the interval collapses: the
    standard deviation is 0 and the lower bound, the mean, the upper bound
    and every percentile are [x] rounded. *)
Theorem get_confidence_interval_single (x : R) (p : Z) :
  (0 <= p <= 100)%Z ->
  get_confidence_interval [x] p
  = Some (round3 x, round3 x, round3 x, round3 x).
Proof.
  intros Hp.
  assert (Hrange : ((0 <=? p) && (p <=? 100))%Z = true).
  { apply andb_true_iff. split; apply Z.leb_le; lia. }
  unfold get_confidence_interval. rewrite Hrange.
  assert (Hmean : mean [x] = x).
  { unfold mean, Rsum. simpl. field. }
  assert (Hstd : std [x] = 0).
  { unfold std. rewrite Hmean. unfold mean, Rsum. simpl.
    replace (x - x) with 0 by lra. rewrite Rabs_R0.
    replace ((0 * (0 * 1) + 0) / 1) with 0 by field. apply sqrt_0. }
  assert (Hpct : percentile_at [x] p = x).
  { unfold percentile_at. change (List.length [x]) with 1%nat.
    change (Z.of_nat 1 - 1)%Z with 0%Z. cbv zeta.
    rewrite Z.mul_0_l. change (0 / 100)%Z with 0%Z.
    change (0 mod 100)%Z with 0%Z. change (Z.min (0 + 1) 0) with 0%Z.
    change (Z.to_nat 0) with 0%nat. simpl. lra. }
  rewrite Hmean, Hstd, Hpct.
  replace (x - Zstar * 0) with x by lra.
  replace (x + Zstar * 0) with x by lra. reflexivity.
Qed.

Lemma get_confidence_interval_single_witness :
  get_confidence_interval [1 / 4] 85
  = Some (round3 (1 / 4), round3 (1 / 4), round3 (1 / 4), round3 (1 / 4)).
Proof.
  apply (get_confidence_interval_single (1 / 4) 85). lia.
Defined.

End SummaryOrder.

(** ** No valid day *)

(** X20. When the table of daily volumes is empty (no valid day), the true
    ratios are 0 and [get_ratio_errors] with [stc_num = 1] still returns a
    row per short-term day: each directional error is then 10000 times the
    day's ratio [ped_X / total]. *)
Theorem get_ratio_errors_no_valid_day (RandomState : Type)
    (choice : RandomState -> nat -> nat -> list nat * RandomState)
    (g : RandomState) (df_int_8h : list D8.row) (repeat : Z) :
  (forall r, In r df_int_8h -> D8.total r <> 0) ->
  exists errs,
    get_ratio_errors RandomState choice g df_int_8h [] 1 repeat = (Ok errs, g)
    /\ Forall2 (fun r e =>
                  forall c c', In (c, c') [(D8.ped_N, Err.ratio_N_errs);
                                           (D8.ped_S, Err.ratio_S_errs);
                                           (D8.ped_W, Err.ratio_W_errs);
                                           (D8.ped_E, Err.ratio_E_errs)] ->
                    exists q, c' e = Some q
                      /\ (q == 10000 * (inject_Z (c r) / inject_Z (D8.total r)))%Q)
               df_int_8h errs.
Proof.
  intros Htot. eexists. split; [reflexivity|].
  induction df_int_8h as [|r l IH]; simpl; constructor.
  - assert (Hr : D8.total r <> 0) by (apply Htot; now left).
    intros c c' Hc. unfold day_errors. cbv zeta.
    assert (E : forall a, ratio_err (fdiv (of_int a) (of_int (D8.total r)))
                            (of_int 0)
                          = Some ((inject_Z a / inject_Z (D8.total r)
                                   - inject_Z 0)
                                  / (inject_Z 0 + (1 # 10000)))%Q).
    { intros a. unfold fdiv, of_int. rewrite inject_Z_nonzero by exact Hr.
      reflexivity. }
    assert (Hq : forall a,
               ((inject_Z a / inject_Z (D8.total r) - inject_Z 0)
                / (inject_Z 0 + (1 # 10000))
                == 10000 * (inject_Z a / inject_Z (D8.total r)))%Q).
    { intros a. change (inject_Z 0) with 0%Q. field.
      unfold Qeq. simpl. lia. }
    simpl in Hc.
    destruct Hc as [H|[H|[H|[H|[]]]]]; inversion H; subst;
      eexists; (split; [apply E | apply Hq]).
  - apply IH. intros x Hx. apply Htot. now right.
Qed.

Lemma get_ratio_errors_no_valid_day_witness :
  exists errs,
    get_ratio_errors nat rotating_choice 0%nat three_stc_days [] 1 100
    = (Ok errs, 0%nat)
    /\ Forall2 (fun r e =>
                  forall c c', In (c, c') [(D8.ped_N, Err.ratio_N_errs);
                                           (D8.ped_S, Err.ratio_S_errs);
                                           (D8.ped_W, Err.ratio_W_errs);
                                           (D8.ped_E, Err.ratio_E_errs)] ->
                    exists q, c' e = Some q
                      /\ (q == 10000 * (inject_Z (c r) / inject_Z (D8.total r)))%Q)
               three_stc_days errs.
Proof.
  apply (get_ratio_errors_no_valid_day nat rotating_choice 0%nat
           three_stc_days 100).
  intros r Hr. simpl in Hr.
  destruct Hr as [<-|[<-|[<-|[]]]]; discriminate.
Defined.
